(** * tftp/server.py: packet codec, read session and request handler

    A shallow embedding of [tftp/server.py].  Python values are modelled
    as the code uses them: [bytes] and [bytearray] objects as lists of
    bytes, [str] objects as lists of Unicode code points, integers as [Z],
    exceptions as a result type, the locals of [handleRRQ] as a record that
    one loop iteration transforms.  The language level is Python 3.11 or
    later, where [int.from_bytes] has the default byte order 'big'. *)

From Stdlib Require Import ZArith NArith List String Ascii Bool Lia.
From Stdlib Require Import Strings.Byte DecimalString.
Import ListNotations.

Local Open Scope Z_scope.

(** ** Python values *)

(** A [bytes] or [bytearray] object. *)
Definition bytes := list byte.

(** A [str] object: its code points. *)
Definition pystr := list N.

(** A string literal of the source (all of them are ASCII). *)
Definition lit (s : string) : pystr := map N_of_ascii (list_ascii_of_string s).

(** [str(n)] and ['{}'.format(n)] for an integer: its decimal digits. *)
Definition str_of_int (n : Z) : pystr := lit (NilZero.string_of_int (Z.to_int n)).

(** The keys and the values of the module's tables: integers and strings. *)
Inductive atom :=
| AInt (n : Z)
| AStr (s : pystr).

(** What a Python name can hold in the functions below; [PObj name] is the
    function, class, module or table bound to [name] at module level. *)
Inductive pyval :=
| PNone
| PInt (n : Z)
| PBytes (b : bytes)
| PStr (s : pystr)
| PObj (name : string).

(** ** Exceptions *)

Inductive exn_class :=
| UnknownOpcodeException
| UnknownErrorCodeException
| IllegalOperationException
| UnknownModeException
| MalformedPacketException
| EmptyPathException        (* storage.EmptyPathException *)
| FileNotFoundException     (* storage.FileNotFoundException *)
| socket_timeout            (* raised by socket.recv once the timeout set by settimeout is over *)
| AttributeError
| NameError
| TypeError
| KeyError
| ValueError
| OverflowError
| UnicodeDecodeError
| UnicodeEncodeError.

(** The classes are compared by name; none of those that the [except]
    clauses of the module name is a subclass of another. *)
Definition exn_class_eqb (a b : exn_class) : bool :=
  match a, b with
  | UnknownOpcodeException, UnknownOpcodeException
  | UnknownErrorCodeException, UnknownErrorCodeException
  | IllegalOperationException, IllegalOperationException
  | UnknownModeException, UnknownModeException
  | MalformedPacketException, MalformedPacketException
  | EmptyPathException, EmptyPathException
  | FileNotFoundException, FileNotFoundException
  | socket_timeout, socket_timeout
  | AttributeError, AttributeError
  | NameError, NameError
  | TypeError, TypeError
  | KeyError, KeyError
  | ValueError, ValueError
  | OverflowError, OverflowError
  | UnicodeDecodeError, UnicodeDecodeError
  | UnicodeEncodeError, UnicodeEncodeError => true
  | _, _ => false
  end.

(** An exception object: its class and [str(ex)]. *)
Record exn := Exn { exn_cls : exn_class; exn_str : pystr }.

(** The result of a call: a value, or a raised exception. *)
Inductive py (A : Type) :=
| Ok (a : A)
| Raise (x : exn).
Arguments Ok {A} a.
Arguments Raise {A} x.

(** One call after another: an exception of the first ends both. *)
Definition bind {A B : Type} (m : py A) (k : A -> py B) : py B :=
  match m with
  | Ok a => k a
  | Raise x => Raise x
  end.

Declare Scope py_scope.
Delimit Scope py_scope with py.
Notation "x <- m ;; k" := (bind m (fun x => k))
  (at level 61, m at next level, right associativity) : py_scope.
Notation "' pat <- m ;; k" := (bind m (fun x => match x with pat => k end))
  (at level 61, pat pattern, m at next level, right associativity) : py_scope.
Local Open Scope py_scope.

(** [raise c(msg)]. *)
Definition raise {A : Type} (c : exn_class) (msg : pystr) : py A := Raise (Exn c msg).

(** ** Names and attributes

    A name that a function reads is looked up among its locals, then among
    the names bound at module level (builtins hold none of the names
    concerned here).  An attribute is looked up on the object. *)

Definition module_names : list string :=
  [ "logging"; "socket"; "socketserver"; "storage"; "threading";
    "SOCKET_TIMEOUT"; "UnknownOpcodeException"; "UnknownErrorCodeException";
    "IllegalOperationException"; "UnknownModeException";
    "MalformedPacketException"; "Opcodes"; "Errors"; "Modes";
    "unpackOpcode"; "packERROR"; "packDATA"; "unpackDATA"; "unpackRWRQ";
    "unpackACK"; "packACK"; "sendError"; "logClientError"; "sendData";
    "handleRRQ"; "handleWRQ"; "Handler"; "Server" ]%string.

(** [x] is one of the strings of [l]. *)
Definition mem_string (x : string) (l : list string) : bool :=
  existsb (String.eqb x) l.

(** The value bound to [x] in [l], if any. *)
Fixpoint assoc_string {A : Type} (x : string) (l : list (string * A)) : option A :=
  match l with
  | [] => None
  | (k, v) :: l' => if String.eqb x k then Some v else assoc_string x l'
  end.

(** Reading the name [name] in a function whose locals are [locals]. *)
Definition load_name (locals : list (string * pyval)) (name : string) : py pyval :=
  match assoc_string name locals with
  | Some v => Ok v
  | None =>
      if mem_string name module_names then Ok (PObj name)
      else raise NameError (lit "name '" ++ lit name ++ lit "' is not defined")
  end.

(** The methods of a [bytearray] that the module calls. *)
Inductive bytearray_method := ba_extend | ba_append.

(** [b.name] for a bytearray [b]. *)
Definition bytearray_getattr (name : string) : py bytearray_method :=
  if String.eqb name "extend" then Ok ba_extend
  else if String.eqb name "append" then Ok ba_append
  else raise AttributeError
         (lit "'bytearray' object has no attribute '" ++ lit name ++ lit "'").

(** The attributes that a socket object has, among those the module
    mentions. *)
Definition socket_attrs : list string := [ "sendto"; "recv"; "settimeout" ]%string.

(** ** Integers and bytes *)

(** [int.from_bytes(b, 'big')]; the empty sequence gives 0. *)
Definition int_from_bytes (b : bytes) : Z :=
  fold_left (fun acc x => acc * 256 + Z.of_N (Byte.to_N x)) b 0.

(** The byte with the value [n] modulo 256. *)
Definition byte_of_Z (n : Z) : byte :=
  match Byte.of_N (Z.to_N (n mod 256)) with
  | Some b => b
  | None => x00
  end.

(** [n.to_bytes(2, 'big')]: OverflowError outside 0..65535. *)
Definition to_bytes2 (n : Z) : py bytes :=
  if (0 <=? n) && (n <? 65536)
  then Ok [byte_of_Z (n / 256); byte_of_Z n]
  else raise OverflowError (lit "int too big to convert").

(** [l[s:e]] for a sequence [l]: negative bounds count from the end, and
    bounds are clipped to the sequence. *)
Definition slice_bound {A : Type} (l : list A) (i : Z) : Z :=
  let n := Z.of_nat (List.length l) in
  if i <? 0 then Z.max (i + n) 0 else Z.min i n.

Definition slice {A : Type} (l : list A) (s e : Z) : list A :=
  let lo := slice_bound l s in
  let hi := slice_bound l e in
  firstn (Z.to_nat (hi - lo)) (skipn (Z.to_nat lo) l).

(** [l[s:]]. *)
Definition slice_from {A : Type} (l : list A) (s : Z) : list A :=
  skipn (Z.to_nat (slice_bound l s)) l.

(** [packet.find(0, s)] for [0 <= s]: the least index from [s] on that holds
    the byte 0, or -1. *)
Fixpoint find0_from (l : bytes) (i : Z) : Z :=
  match l with
  | [] => -1
  | b :: l' => if Byte.eqb b x00 then i else find0_from l' (i + 1)
  end.

Definition find0 (packet : bytes) (s : Z) : Z :=
  if Z.of_nat (List.length packet) <? s then -1
  else find0_from (skipn (Z.to_nat s) packet) s.

(** [bytes(msg, 'ascii')]. *)
Fixpoint encode_ascii (msg : pystr) : py bytes :=
  match msg with
  | [] => Ok []
  | c :: msg' =>
      if (c <? 128)%N
      then (r <- encode_ascii msg' ;; Ok (byte_of_Z (Z.of_N c) :: r))
      else raise UnicodeEncodeError (lit "'ascii' codec can't encode character")
  end.

(** [b.decode('utf-8')], the strict decoder: [utf8_lead] gives, for a lead
    byte, the number of continuation bytes, the bounds of the first of them
    and the bits the lead byte carries. *)
Definition utf8_lead (c : N) : option (nat * N * N * N) :=
  (if c <? 0xC2 then None
   else if c <=? 0xDF then Some (1%nat, 0x80, 0xBF, c - 0xC0)
   else if c =? 0xE0 then Some (2%nat, 0xA0, 0xBF, 0)
   else if c =? 0xED then Some (2%nat, 0x80, 0x9F, 0xD)
   else if c <=? 0xEF then Some (2%nat, 0x80, 0xBF, c - 0xE0)
   else if c =? 0xF0 then Some (3%nat, 0x90, 0xBF, 0)
   else if c <=? 0xF3 then Some (3%nat, 0x80, 0xBF, c - 0xF0)
   else if c =? 0xF4 then Some (3%nat, 0x80, 0x8F, 4)
   else None)%N.

(** The failure of the decoder. *)
Definition utf8_error {A : Type} : py A :=
  raise UnicodeDecodeError (lit "'utf-8' codec can't decode byte").

(** The decoder reads a byte at a time: [need] continuation bytes are
    still due for the code point that [acc] collects, the next of them
    within [lo..hi]. *)
Fixpoint utf8_run (b : bytes) (need : nat) (acc lo hi : N) : py pystr :=
  match b with
  | [] => match need with O => Ok [] | S _ => utf8_error end
  | x :: r =>
      let c := Byte.to_N x in
      match need with
      | O =>
          if (c <? 0x80)%N then (s <- utf8_run r O 0 0x80 0xBF ;; Ok (c :: s))
          else match utf8_lead c with
               | Some (k, lo', hi', bits) => utf8_run r k bits lo' hi'
               | None => utf8_error
               end
      | S k =>
          if ((lo <=? c) && (c <=? hi))%N then
            let acc' := (acc * 64 + (c - 0x80))%N in
            match k with
            | O => (s <- utf8_run r O 0 0x80 0xBF ;; Ok (acc' :: s))
            | S _ => utf8_run r k acc' 0x80 0xBF
            end
          else utf8_error
      end
  end.

Definition decode_utf8 (b : bytes) : py pystr := utf8_run b O 0 0x80 0xBF.

(** [s.upper()].  Below 128 this is Python's mapping.  From 128 on, the ten
    code points whose upper case is ASCII text are mapped as Python maps
    them; every other one has an upper case that is not ASCII, and is kept
    as it is: the module only compares the result with the ASCII keys of
    [Modes]. *)
Definition upper_char (c : N) : pystr :=
  (if (97 <=? c) && (c <=? 122) then [c - 32]
   else if c =? 0xDF then lit "SS"
   else if c =? 0x131 then lit "I"
   else if c =? 0x17F then lit "S"
   else if c =? 0xFB00 then lit "FF"
   else if c =? 0xFB01 then lit "FI"
   else if c =? 0xFB02 then lit "FL"
   else if c =? 0xFB03 then lit "FFI"
   else if c =? 0xFB04 then lit "FFL"
   else if (c =? 0xFB05) || (c =? 0xFB06) then lit "ST"
   else [c])%N.

Definition str_upper (s : pystr) : pystr := flat_map upper_char s.

(** ** The module's tables *)

(** Equality of values, as [==] and the lookup in a table decide it. *)
Definition pystr_eqb (a b : pystr) : bool :=
  if list_eq_dec N.eq_dec a b then true else false.

Definition atom_eqb (a b : atom) : bool :=
  match a, b with
  | AInt m, AInt n => m =? n
  | AStr s, AStr t => pystr_eqb s t
  | _, _ => false
  end.

(** A table of the module: its items in the order of the source. *)
Definition dict := list (atom * atom).

(** The value under the key [k], if any. *)
Fixpoint dict_get (d : dict) (k : atom) : option atom :=
  match d with
  | [] => None
  | (k', v) :: d' => if atom_eqb k k' then Some v else dict_get d' k
  end.

(** [k in d]. *)
Definition dict_contains (d : dict) (k : atom) : bool :=
  match dict_get d k with Some _ => true | None => false end.

(** [d[k]]. *)
Definition dict_getitem (d : dict) (k : pyval) : py atom :=
  match k with
  | PInt n =>
      match dict_get d (AInt n) with
      | Some v => Ok v
      | None => raise KeyError (str_of_int n)
      end
  | PStr s =>
      match dict_get d (AStr s) with
      | Some v => Ok v
      | None => raise KeyError (lit "'" ++ s ++ lit "'")
      end
  | _ => raise KeyError []
  end.

(** A string literal used as a key. *)
Definition key (s : string) : pyval := PStr (lit s).

Definition Opcodes : dict :=
  [ (AStr (lit "RRQ"), AInt 0x01);
    (AStr (lit "WRQ"), AInt 0x02);
    (AStr (lit "DATA"), AInt 0x03);
    (AStr (lit "ACK"), AInt 0x04);
    (AStr (lit "ERROR"), AInt 0x05);
    (AInt 0x01, AStr (lit "RRQ"));
    (AInt 0x02, AStr (lit "WRQ"));
    (AInt 0x03, AStr (lit "DATA"));
    (AInt 0x04, AStr (lit "ACK"));
    (AInt 0x05, AStr (lit "ERROR")) ].

Definition Errors : dict :=
  [ (AStr (lit "NOT_DEFINED"), AInt 0x00);
    (AStr (lit "FILE_NOT_FOUND"), AInt 0x01);
    (AStr (lit "ACCESS_VIOLATION"), AInt 0x02);
    (AStr (lit "ALLOCATION_EXCEEDED"), AInt 0x03);
    (AStr (lit "ILLEGAL_OPERATION"), AInt 0x04);
    (AStr (lit "UNKNOWN_TRANSFER_ID"), AInt 0x05);
    (AStr (lit "FILE_EXISTS"), AInt 0x06);
    (AStr (lit "NO_SUCH_USER"), AInt 0x07);
    (AInt 0x00, AStr (lit "NOT_DEFINED"));
    (AInt 0x01, AStr (lit "FILE_NOT_FOUND"));
    (AInt 0x02, AStr (lit "ACCESS_VIOLATION"));
    (AInt 0x03, AStr (lit "ALLOCATION_EXCEEDED"));
    (AInt 0x04, AStr (lit "ILLEGAL_OPERATION"));
    (AInt 0x05, AStr (lit "UNKNOWN_TRANSFER_ID"));
    (AInt 0x06, AStr (lit "FILE_EXISTS"));
    (AInt 0x07, AStr (lit "NO_SUCH_USER")) ].

Definition Modes : dict :=
  [ (AStr (lit "OCTET"), AStr (lit "octet"));
    (AStr (lit "NETASCII"), AStr (lit "netascii"));
    (AStr (lit "MAIL"), AStr (lit "mail")) ].

(** [obj[k]] for the object that a name holds. *)
Definition subscript (obj : pyval) (k : pyval) : py atom :=
  match obj with
  | PObj name =>
      if String.eqb name "Opcodes" then dict_getitem Opcodes k
      else if String.eqb name "Errors" then dict_getitem Errors k
      else if String.eqb name "Modes" then dict_getitem Modes k
      else raise TypeError (lit "object is not subscriptable")
  | _ => raise TypeError (lit "object is not subscriptable")
  end.

(** ['{}'.format(v)] for a value of the tables. *)
Definition format (v : atom) : pystr :=
  match v with
  | AInt n => str_of_int n
  | AStr s => s
  end.

(** [v.to_bytes(2, 'big')] for a value of the tables. *)
Definition atom_to_bytes2 (v : atom) : py bytes :=
  match v with
  | AInt n => to_bytes2 n
  | AStr _ => raise AttributeError (lit "'str' object has no attribute 'to_bytes'")
  end.

(** ** Packet codec *)

(** A call [b.m(arg)] of a bytearray method, the attribute [m] already
    looked up. *)
Definition ba_call (m : bytearray_method) (b : bytes) (arg : pyval) : py bytes :=
  match m, arg with
  | ba_extend, PBytes a => Ok (b ++ a)
  | ba_extend, _ => raise TypeError (lit "can't extend bytearray with this object")
  | ba_append, PInt n =>
      if (0 <=? n) && (n <? 256) then Ok (b ++ [byte_of_Z n])
      else raise ValueError (lit "byte must be in range(0, 256)")
  | ba_append, _ => raise TypeError (lit "an integer is required")
  end.

(** [bytes(data)]: a bytes object as it is, an integer [n] as [n] zero
    bytes. *)
Definition bytes_of (data : pyval) : py bytes :=
  match data with
  | PBytes d => Ok d
  | PInt n =>
      if n <? 0 then raise ValueError (lit "negative count")
      else Ok (repeat x00 (Z.to_nat n))
  | PStr _ => raise TypeError (lit "string argument without an encoding")
  | _ => raise TypeError (lit "cannot convert object to bytes")
  end.

(** [blockNum.to_bytes(2, 'big')]. *)
Definition val_to_bytes2 (v : pyval) : py bytes :=
  match v with
  | PInt n => to_bytes2 n
  | _ => raise AttributeError (lit "object has no attribute 'to_bytes'")
  end.

(** [unpackOpcode]: the opcode is read from [packet[:2]], whatever the
    length of the packet, and looked up among the keys of [Opcodes]. *)
Definition unpackOpcode (packet : bytes) : py Z :=
  let c := int_from_bytes (slice packet 0 2) in
  if negb (dict_contains Opcodes (AInt c))
  then raise UnknownOpcodeException
         (lit "Unknown Opcode '" ++ format (AInt c) ++ lit "'")
  else Ok c.

(** [packERROR]: opcode, code, the text in ASCII, a zero byte. *)
Definition packERROR (code : atom) (msg : pystr) : py bytes :=
  if negb (dict_contains Errors code)
  then raise UnknownErrorCodeException
         (lit "Unknown error code '" ++ format code ++ lit "'")
  else
    let b : bytes := [] in
    m <- bytearray_getattr "extend" ;;
    op <- dict_getitem Opcodes (key "ERROR") ;;
    a <- atom_to_bytes2 op ;;
    b <- ba_call m b (PBytes a) ;;
    m <- bytearray_getattr "extend" ;;
    a <- atom_to_bytes2 code ;;
    b <- ba_call m b (PBytes a) ;;
    m <- bytearray_getattr "extend" ;;
    a <- encode_ascii msg ;;
    b <- ba_call m b (PBytes a) ;;
    m <- bytearray_getattr "append" ;;
    b <- ba_call m b (PInt 0) ;;
    Ok b.

(** [packDATA].  The source writes the method of the first call [extebd];
    the attribute is looked up before the argument of the call is
    evaluated.  The parameters are dynamic values: [handleRRQ] passes them
    through [sendData] in the other order. *)
Definition packDATA (data blockNum : pyval) : py bytes :=
  let b : bytes := [] in
  m <- bytearray_getattr "extebd" ;;
  op <- dict_getitem Opcodes (key "DATA") ;;
  a <- atom_to_bytes2 op ;;
  b <- ba_call m b (PBytes a) ;;
  m <- bytearray_getattr "extend" ;;
  a <- val_to_bytes2 blockNum ;;
  b <- ba_call m b (PBytes a) ;;
  m <- bytearray_getattr "extend" ;;
  a <- bytes_of data ;;
  b <- ba_call m b (PBytes a) ;;
  Ok b.

(** [unpackDATA]: the tuple [(opcode, blockNum, data)]. *)
Definition unpackDATA (packet : bytes) : py (Z * Z * bytes) :=
  opcode <- unpackOpcode packet ;;
  DATA <- dict_getitem Opcodes (key "DATA") ;;
  if negb (atom_eqb (AInt opcode) DATA) then
    name <- dict_getitem Opcodes (PInt opcode) ;;
    raise IllegalOperationException
      (lit "Expected DATA packet, but got '" ++ format name ++ lit "'")
  else
    let blockNum := int_from_bytes (slice packet 2 4) in
    let data := slice_from packet 4 in
    Ok (opcode, blockNum, data).

(** [unpackRWRQ]: the tuple [(opcode, filename, mode.upper())].  The
    message of the rejection of another opcode is built from [Opcodes[c]];
    the function binds [packet] and [opcode] at that point, and no [c]. *)
Definition unpackRWRQ (packet : bytes) : py (Z * pystr * pystr) :=
  opcode <- unpackOpcode packet ;;
  RRQ <- dict_getitem Opcodes (key "RRQ") ;;
  WRQ <- dict_getitem Opcodes (key "WRQ") ;;
  if negb (atom_eqb (AInt opcode) RRQ || atom_eqb (AInt opcode) WRQ) then
    c <- load_name [("packet", PBytes packet); ("opcode", PInt opcode)]%string "c" ;;
    name <- dict_getitem Opcodes c ;;
    raise IllegalOperationException
      (lit "Expected RRQ or WRQ but got '" ++ format name ++ lit "'")
  else
    let s := 2 in
    let e := find0 packet s in
    if e <? s then
      raise MalformedPacketException (lit "Couldn't find filename termination byte")
    else
      filename <- decode_utf8 (slice packet s e) ;;
      let s := e + 1 in
      let e := find0 packet s in
      if e <? s then
        raise MalformedPacketException (lit "Couldn't find mode termination byte")
      else
        mode <- decode_utf8 (slice packet s e) ;;
        if pystr_eqb filename [] then
          raise EmptyPathException (lit "Filename cannot be empty")
        else if negb (dict_contains Modes (AStr (str_upper mode))) then
          raise UnknownModeException
            (lit "Mode '" ++ mode ++ lit "' not recognized")
        else Ok (opcode, filename, str_upper mode).

(** [unpackACK]: the tuple [(opcode, blockNum)].  The block number is
    [int.from_bytes(packet[2:4])], with the default byte order, 'big'. *)
Definition unpackACK (packet : bytes) : py (Z * Z) :=
  opcode <- unpackOpcode packet ;;
  ACK <- dict_getitem Opcodes (key "ACK") ;;
  if negb (atom_eqb (AInt opcode) ACK) then
    name <- dict_getitem Opcodes (PInt opcode) ;;
    raise IllegalOperationException
      (lit "Expected ACK packet, but got '" ++ format name ++ lit "'")
  else
    let blockNum := int_from_bytes (slice packet 2 4) in
    Ok (opcode, blockNum).

(** [packACK].  The source reads the table under the name [Opcode]. *)
Definition packACK (blockNum : pyval) : py bytes :=
  let b : bytes := [] in
  m <- bytearray_getattr "extend" ;;
  Opcode <- load_name [("blockNum", blockNum); ("b", PBytes b)]%string "Opcode" ;;
  op <- subscript Opcode (key "ACK") ;;
  a <- atom_to_bytes2 op ;;
  b <- ba_call m b (PBytes a) ;;
  m <- bytearray_getattr "extend" ;;
  a <- val_to_bytes2 blockNum ;;
  b <- ba_call m b (PBytes a) ;;
  Ok b.


(** ** The socket and the peers *)

(** An address: host and port. *)
Definition address := (string * Z)%type.

(** A datagram handed to [socket.sendto]: its bytes and its destination. *)
Definition datagram := (bytes * address)%type.

(** What the network does while the handler waits in [socket.recv]: a
    datagram arrives from some address, or the timeout set by
    [socket.settimeout] passes. *)
Inductive event :=
| Datagram (from : address) (payload : bytes)
| Timeout.

(** [socket.recv(1024)]: the bytes of the next datagram, cut to 1024, with
    no word of where it came from; [socket.timeout] when none arrives (a
    trace that has ended is silence). *)
Definition recv (evs : list event) : py bytes * list event :=
  match evs with
  | Datagram _ payload :: evs' => (Ok (firstn 1024 payload), evs')
  | Timeout :: evs' => (raise socket_timeout (lit "timed out"), evs')
  | [] => (raise socket_timeout (lit "timed out"), [])
  end.

(** [socket.sendto(data, address)]. *)
Definition sendto (data : pyval) (to : address) : list datagram * py unit :=
  match data with
  | PBytes b => ([(b, to)], Ok tt)
  | _ => ([], raise TypeError (lit "a bytes-like object is required"))
  end.

(** Modelled from the spec: [tftp/storage.py] is not among the sources.
    The module [storage] is taken to bind what [server.py] reads from it:
    the class [Storage], whose [get] gives the bytes of a file or fails with
    NotFound or EmptyPath, and the two exception classes.  A store is passed
    to the handlers as the function [get] is. *)
Definition storage_names : list string :=
  [ "Storage"; "EmptyPathException"; "FileNotFoundException" ]%string.

Definition storage_getattr (name : string) : py pyval :=
  if mem_string name storage_names then Ok (PObj ("storage." ++ name))
  else raise AttributeError
         (lit "module 'tftp.storage' has no attribute '" ++ lit name ++ lit "'").

(** [storage.Storage().get]. *)
Definition storage := pystr -> py bytes.

(** The exception class that an [except] clause names. *)
Definition exception_class (v : pyval) : py exn_class :=
  match v with
  | PObj name =>
      if String.eqb name "UnknownOpcodeException" then Ok UnknownOpcodeException
      else if String.eqb name "UnknownErrorCodeException" then Ok UnknownErrorCodeException
      else if String.eqb name "IllegalOperationException" then Ok IllegalOperationException
      else if String.eqb name "UnknownModeException" then Ok UnknownModeException
      else if String.eqb name "MalformedPacketException" then Ok MalformedPacketException
      else if String.eqb name "storage.EmptyPathException" then Ok EmptyPathException
      else if String.eqb name "storage.FileNotFoundException" then Ok FileNotFoundException
      else raise TypeError (lit "catching classes that do not inherit from BaseException is not allowed")
  | _ => raise TypeError (lit "catching classes that do not inherit from BaseException is not allowed")
  end.

(** [socket.name], where [socket] is the socket object that the handlers
    are given. *)
Definition socket_getattr (name : string) : py pyval :=
  if mem_string name socket_attrs then Ok (PObj name)
  else raise AttributeError
         (lit "'socket' object has no attribute '" ++ lit name ++ lit "'").

(** ** Control flow of a handler

    A handler's step sends datagrams and then goes on with its locals,
    returns, or leaves with an exception. *)

Inductive flow (L : Type) :=
| Next (l : L)
| Return
| Throw (x : exn).
Arguments Next {L} l.
Arguments Return {L}.
Arguments Throw {L} x.

(** What was sent, and how the step ended. *)
Definition step (L : Type) := (list datagram * flow L)%type.

(** An [except] clause: the expression that names its classes, and its
    handler. *)
Definition clause (L : Type) := (py (list exn_class) * (exn -> step L))%type.

(** The clauses are tried in order once an exception [x] reaches them.  A
    clause's expression is evaluated when its turn comes; if that
    evaluation raises, its exception is the one that leaves.  An exception
    raised by a handler leaves too. *)
Fixpoint dispatch {L : Type} (out : list datagram) (x : exn)
    (clauses : list (clause L)) : step L :=
  match clauses with
  | [] => (out, Throw x)
  | (cls, handler) :: clauses' =>
      match cls with
      | Raise y => (out, Throw y)
      | Ok cs =>
          if existsb (exn_class_eqb (exn_cls x)) cs
          then let (out', f) := handler x in (out ++ out', f)
          else dispatch out x clauses'
      end
  end.

(** [try: body  except ...: ...  except ...: ...]. *)
Definition try_except {L : Type} (body : step L) (clauses : list (clause L)) : step L :=
  match body with
  | (out, Throw x) => dispatch out x clauses
  | _ => body
  end.

(** A statement that may raise, then the rest. *)
Definition seq_py {A L : Type} (m : py A) (k : A -> step L) : step L :=
  match m with
  | Ok a => k a
  | Raise x => ([], Throw x)
  end.

(** A statement that sends, then the rest. *)
Definition seq_send {L : Type} (m : list datagram * py unit) (k : step L) : step L :=
  match m with
  | (out, Ok _) => let (out', f) := k in (out ++ out', f)
  | (out, Raise x) => (out, Throw x)
  end.

(** [sendError(address, socket, err)]. *)
Definition sendError (to : address) (err : bytes) : list datagram * py unit :=
  sendto (PBytes err) to.

(** [sendData(address, socket, data, blockNum)]. *)
Definition sendData (to : address) (data blockNum : pyval) : list datagram * py unit :=
  match packDATA data blockNum with
  | Ok data => sendto (PBytes data) to
  | Raise x => ([], Raise x)
  end.

(** ** handleRRQ *)

(** The locals of [handleRRQ] that its loop reads and writes. *)
Module RRQ.
Record locals := Locals {
  data : pyval;
  sendDATA : bool;
  readACK : bool;
  dataBlock : Z;
  ackBlock : Z;
  s : Z;
  e : Z
}.
End RRQ.

(** The locals as the loop is entered. *)
Definition initial : RRQ.locals :=
  {| RRQ.data := PNone; RRQ.sendDATA := false; RRQ.readACK := false;
     RRQ.dataBlock := 0; RRQ.ackBlock := 0; RRQ.s := -512; RRQ.e := 0 |}.

(** "Ready for new DATA packet": the body of [if ackBlock == dataBlock]. *)
Definition new_block (file : bytes) (l : RRQ.locals) : RRQ.locals :=
  let fileSize := Z.of_nat (List.length file) in
  let dataBlock := RRQ.dataBlock l + 1 in
  let s := RRQ.s l + 512 in
  let e := RRQ.e l + 512 in
  let e := if e >? fileSize then -1 else e in
  {| RRQ.data := PBytes (slice file s e); RRQ.sendDATA := true;
     RRQ.readACK := RRQ.readACK l; RRQ.dataBlock := dataBlock;
     RRQ.ackBlock := RRQ.ackBlock l; RRQ.s := s; RRQ.e := e |}.

(** The handler of a timeout while waiting for an ACK: resend. *)
Definition on_timeout (l : RRQ.locals) : RRQ.locals :=
  {| RRQ.data := RRQ.data l; RRQ.sendDATA := true; RRQ.readACK := false;
     RRQ.dataBlock := RRQ.dataBlock l; RRQ.ackBlock := RRQ.ackBlock l;
     RRQ.s := RRQ.s l; RRQ.e := RRQ.e l |}.

(** The ACK for the current block has come. *)
Definition on_ack (block : Z) (l : RRQ.locals) : RRQ.locals :=
  {| RRQ.data := RRQ.data l; RRQ.sendDATA := RRQ.sendDATA l; RRQ.readACK := false;
     RRQ.dataBlock := RRQ.dataBlock l; RRQ.ackBlock := block;
     RRQ.s := RRQ.s l; RRQ.e := RRQ.e l |}.

(** The DATA packet has been handed to the socket. *)
Definition on_sent (l : RRQ.locals) : RRQ.locals :=
  {| RRQ.data := RRQ.data l; RRQ.sendDATA := false; RRQ.readACK := true;
     RRQ.dataBlock := RRQ.dataBlock l; RRQ.ackBlock := RRQ.ackBlock l;
     RRQ.s := RRQ.s l; RRQ.e := RRQ.e l |}.

(** The expression [socket.Timeout] of the two [except] clauses of the
    loop; [socket] is the parameter of [handleRRQ], a socket object. *)
Definition socket_Timeout : py (list exn_class) :=
  v <- socket_getattr "Timeout" ;; c <- exception_class v ;; Ok [c].

(** "We're sending a DATA packet": the body of [if sendDATA].  The call is
    [sendData(address, socket, dataBlock, data)], the parameters of
    [sendData] are [(address, socket, data, blockNum)]. *)
Definition send_phase (peer : address) (l : RRQ.locals) : step RRQ.locals :=
  if RRQ.sendDATA l then
    try_except
      (seq_send (sendData peer (PInt (RRQ.dataBlock l)) (RRQ.data l))
         ([], Next (on_sent l)))
      [ (socket_Timeout,
         fun ex =>
           seq_py (dict_getitem Errors (key "NOT_DEFINED")) (fun code =>
           seq_py (packERROR code (exn_str ex)) (fun err =>
           seq_send (sendError peer err) ([], Return)))) ]
  else ([], Next l).

(** "We're waiting for an ACK packet": the body of [if readACK]. *)
Definition recv_phase (peer : address) (l : RRQ.locals) (evs : list event)
  : step RRQ.locals * list event :=
  if RRQ.readACK l then
    let (r, evs') := recv evs in
    (try_except
       (seq_py r (fun packet =>
          try_except
            (seq_py (unpackACK packet) (fun '(opcode, block) =>
               if block =? RRQ.dataBlock l
               then ([], Next (on_ack block l))
               else ([], Next l)))
            [ (v <- load_name [] "IllegalOperationException" ;;
               c <- exception_class v ;; Ok [c],
               fun ex =>
                 seq_py (dict_getitem Errors (key "ILLEGAL_OPERATION")) (fun code =>
                 seq_py (packERROR code (exn_str ex)) (fun err =>
                 seq_send (sendError peer err) ([], Return)))) ]))
       [ (socket_Timeout, fun _ => ([], Next (on_timeout l))) ],
     evs')
  else (([], Next l), evs).

(** "If we've acked the last block and no more data, we're done!" *)
Definition finished (l : RRQ.locals) : bool :=
  (RRQ.ackBlock l =? RRQ.dataBlock l) && (RRQ.e l =? -1).

(** One turn of [while True]. *)
Definition iteration (peer : address) (file : bytes) (l : RRQ.locals)
    (evs : list event) : step RRQ.locals * list event :=
  let l := if RRQ.ackBlock l =? RRQ.dataBlock l then new_block file l else l in
  match send_phase peer l with
  | (out1, Next l) =>
      match recv_phase peer l evs with
      | ((out2, Next l), evs') =>
          if finished l then ((out1 ++ out2, Return), evs')
          else ((out1 ++ out2, Next l), evs')
      | ((out2, f), evs') => ((out1 ++ out2, f), evs')
      end
  | (out1, f) => ((out1, f), evs)
  end.

(** [fuel] turns of the loop; [Next l] is a loop that still runs. *)
Fixpoint loop (fuel : nat) (peer : address) (file : bytes) (l : RRQ.locals)
    (evs : list event) : step RRQ.locals * list event :=
  match fuel with
  | O => (([], Next l), evs)
  | S fuel' =>
      match iteration peer file l evs with
      | ((out, Next l'), evs') =>
          let '((out', f), evs'') := loop fuel' peer file l' evs' in
          ((out ++ out', f), evs'')
      | r => r
      end
  end.

(** [handleRRQ]: the file is fetched from the store, a failure of the
    store is answered with FILE_NOT_FOUND, and the loop is entered.
    Logging has no part in what is sent or returned and is left out. *)
Definition handleRRQ (store : storage) (fuel : nat) (peer : address)
    (filename mode : pystr) (evs : list event) : step RRQ.locals * list event :=
  match
    try_except (L := bytes)
      (seq_py (store filename) (fun file => ([], Next file)))
      [ (v1 <- storage_getattr "FileNotFoundException" ;;
         v2 <- storage_getattr "EmptyPathException" ;;
         c1 <- exception_class v1 ;; c2 <- exception_class v2 ;; Ok [c1; c2],
         fun ex =>
           seq_py (dict_getitem Errors (key "FILE_NOT_FOUND")) (fun code =>
           seq_py (packERROR code (exn_str ex)) (fun err =>
           seq_send (sendError peer err) ([], Return)))) ]
  with
  | (out, Next file) =>
      let '((out', f), evs') := loop fuel peer file initial evs in
      ((out ++ out', f), evs')
  | (out, Return) => ((out, Return), evs)
  | (out, Throw x) => ((out, Throw x), evs)
  end.

(** ** handleWRQ *)

(** [handleWRQ]: [socket.sendto(filename, address)], with [filename] the
    [str] that [unpackRWRQ] decoded. *)
Definition handleWRQ (peer : address) (filename mode : pystr) : step unit :=
  seq_send (sendto (PStr filename) peer) ([], Return).

(** ** Handler.handle *)

(** What a call of [handle] comes to: which transfer handler it entered, if
    any, what was sent, how it ended and what is left of the trace. *)
Record handled := Handled {
  entered : option string;
  sent : list datagram;
  ending : flow unit;
  rest : list event
}.

(** The ending of a handler, without its locals. *)
Definition forget {L : Type} (f : flow L) : flow unit :=
  match f with
  | Next _ => Next tt
  | Return => Return
  | Throw x => Throw x
  end.

(** The body of the three [except] clauses of [handle]: an Error packet
    with the code named [code] and the text of the exception goes to the
    client, and [handle] returns. *)
Definition reject (client_address : address) (code : string) (ex : exn)
  : step (Z * pystr * pystr) :=
  seq_py (dict_getitem Errors (key code)) (fun code =>
  seq_py (packERROR code (exn_str ex)) (fun err =>
  seq_send (sendError client_address err) ([], Return))).

(** [Handler.handle]: [self.request] is [(packet, socket)].  Exceptions
    of [unpackRWRQ] that no clause names leave [handle]. *)
Definition handle (store : storage) (fuel : nat) (packet : bytes)
    (client_address : address) (evs : list event) : handled :=
  match
    try_except
      (seq_py (unpackRWRQ packet) (fun r => ([], Next r)))
      [ (v <- load_name [] "UnknownModeException" ;;
         c <- exception_class v ;; Ok [c],
         reject client_address "ACCESS_VIOLATION");
        (v <- storage_getattr "EmptyPathException" ;;
         c <- exception_class v ;; Ok [c],
         reject client_address "FILE_NOT_FOUND");
        (v1 <- load_name [] "IllegalOperationException" ;;
         v2 <- load_name [] "UnknownOpcodeException" ;;
         c1 <- exception_class v1 ;; c2 <- exception_class v2 ;; Ok [c1; c2],
         reject client_address "ILLEGAL_OPERATION") ]
  with
  | (out, Next (opcode, filename, mode)) =>
      match dict_getitem Opcodes (key "RRQ") with
      | Ok RRQ =>
          if atom_eqb (AInt opcode) RRQ then
            let '((out', f), evs') :=
              handleRRQ store fuel client_address filename mode evs in
            Handled (Some "handleRRQ"%string) (out ++ out') (forget f) evs'
          else
            let (out', f) := handleWRQ client_address filename mode in
            Handled (Some "handleWRQ"%string) (out ++ out') f evs
      | Raise x => Handled None out (Throw x) evs
      end
  | (out, f) => Handled None out (forget f) evs
  end.

(** ** Concrete values for the examples *)

(** The bytes with the given values. *)
Definition bs (l : list Z) : bytes := map byte_of_Z l.

(** The ASCII text of a literal, as bytes. *)
Definition ascii_bytes (s : string) : bytes :=
  map (fun c => byte_of_Z (Z.of_N c)) (lit s).

(** A file of [n] bytes: 0, 1, 2, ... (modulo 256). *)
Definition file_of_size (n : nat) : bytes :=
  map (fun i => byte_of_Z (Z.of_nat i)) (seq 0 n).

Definition client : address := ("192.0.2.1"%string, 4000).

(** A store that holds one file under every name. *)
Definition store_of (file : bytes) : storage := fun _ => Ok file.



(** The exception that the expression [socket.Timeout] raises. *)
Definition no_Timeout : exn :=
  Exn AttributeError (lit "'socket' object has no attribute 'Timeout'").

(** An Error packet on the wire: opcode 5, the code, the text, a zero. *)
Definition error_packet (code : Z) (text : bytes) : bytes :=
  bs [0; 5; 0; code] ++ text ++ [x00].

(** The code of the Error packet that [handle] answers an exception of
    [unpackRWRQ] with, as its three [except] clauses give it. *)
Definition answer_code (c : exn_class) : Z :=
  match c with
  | UnknownModeException => 2
  | EmptyPathException => 1
  | _ => 4
  end.

(** The text that ASCII bytes spell. *)
Definition text (b : bytes) : pystr := map Byte.to_N b.

(** Bytes of ASCII text without a zero byte. *)
Definition plain (b : bytes) : Prop :=
  Forall (fun x => (0 < Byte.to_N x < 128)%N) b.

(** The wire format of a request: the opcode, the file name, a zero byte,
    the mode, a zero byte; [rest] is what may follow. *)
Definition request_packet (opcode : Z) (filename mode rest : bytes) : bytes :=
  bs [0; opcode] ++ filename ++ [x00] ++ mode ++ [x00] ++ rest.

(** How a call of [unpackRWRQ] on a packet with the opcode 1 or 2 can
    end. *)
Inductive request_outcome (c : Z) : py (Z * pystr * pystr) -> Prop :=
| no_filename_end :
    request_outcome c
      (raise MalformedPacketException (lit "Couldn't find filename termination byte"))
| no_mode_end :
    request_outcome c
      (raise MalformedPacketException (lit "Couldn't find mode termination byte"))
| not_utf8 x :
    exn_cls x = UnicodeDecodeError -> request_outcome c (Raise x)
| empty_filename :
    request_outcome c (raise EmptyPathException (lit "Filename cannot be empty"))
| unknown_mode mode :
    dict_contains Modes (AStr (str_upper mode)) = false ->
    request_outcome c
      (raise UnknownModeException (lit "Mode '" ++ mode ++ lit "' not recognized"))
| request filename mode :
    filename <> [] ->
    dict_contains Modes (AStr (str_upper mode)) = true ->
    request_outcome c (Ok (c, filename, str_upper mode)).

(** * Properties *)

(** Case analysis on the condition of the first [if] of the goal. *)
Ltac case_if :=
  match goal with
  | |- context [if ?b then _ else _] => destruct b eqn:?
  end.

(** The goal says that a result with a known class is the exception [x],
    of which [Hc] gives another class. *)
Ltac other_class Hc :=
  let H := fresh in
  intros H; inversion H; subst; cbn in Hc; discriminate Hc.

(** ** The tables *)

Lemma in_Opcodes_int (c : Z) :
  dict_contains Opcodes (AInt c) = true <-> 1 <= c <= 5.
Proof.
  unfold dict_contains, Opcodes; cbn.
  destruct (Z.eqb_spec c 1); [subst; cbn; lia|].
  destruct (Z.eqb_spec c 2); [subst; cbn; lia|].
  destruct (Z.eqb_spec c 3); [subst; cbn; lia|].
  destruct (Z.eqb_spec c 4); [subst; cbn; lia|].
  destruct (Z.eqb_spec c 5); [subst; cbn; lia|].
  split; [discriminate | lia].
Qed.

Lemma unpackOpcode_Ok (packet : bytes) (c : Z) :
  unpackOpcode packet = Ok c <->
  c = int_from_bytes (slice packet 0 2) /\ 1 <= c <= 5.
Proof.
  unfold unpackOpcode.
  destruct (dict_contains Opcodes (AInt (int_from_bytes (slice packet 0 2)))) eqn:E; cbn.
  - apply in_Opcodes_int in E. split.
    + intros H; inversion H; subst; auto.
    + intros [-> _]; reflexivity.
  - split; [discriminate|]. intros [-> H]. apply in_Opcodes_int in H. congruence.
Qed.

Lemma unpackOpcode_Raise (packet : bytes) (x : exn) :
  unpackOpcode packet = Raise x ->
  ~ 1 <= int_from_bytes (slice packet 0 2) <= 5 /\
  x = Exn UnknownOpcodeException
        (lit "Unknown Opcode '" ++ str_of_int (int_from_bytes (slice packet 0 2)) ++ lit "'").
Proof.
  unfold unpackOpcode.
  destruct (dict_contains Opcodes (AInt (int_from_bytes (slice packet 0 2)))) eqn:E; cbn.
  - discriminate.
  - intros H; inversion H; subst. split; [|reflexivity].
    intros Hc. apply in_Opcodes_int in Hc. congruence.
Qed.

(** ** C10 *)

Lemma unpackRWRQ_non_request_NameError (packet : bytes) (c : Z) :
  unpackOpcode packet = Ok c -> c = 3 \/ c = 4 \/ c = 5 ->
  unpackRWRQ packet = raise NameError (lit "name 'c' is not defined").
Proof.
  intros H Hc. unfold unpackRWRQ. rewrite H.
  destruct Hc as [-> | [-> | ->]]; reflexivity.
Qed.

(** C10: for every packet whose opcode is DATA (3), ACK (4) or ERROR (5),
    [unpackRWRQ] raises an exception and returns no tuple.  (The branch
    that rejects the opcode is entered; the exception that leaves it is the
    NameError of the name [c] in its message.) *)
Theorem unpackRWRQ_rejects_non_request (packet : bytes) (c : Z) :
  unpackOpcode packet = Ok c -> c = 3 \/ c = 4 \/ c = 5 ->
  (exists x, unpackRWRQ packet = Raise x /\ exn_cls x = NameError) /\
  (forall t, unpackRWRQ packet <> Ok t).
Proof.
  intros H Hc.
  rewrite (unpackRWRQ_non_request_NameError packet c H Hc).
  split.
  - eexists; split; reflexivity.
  - intros t; discriminate.
Qed.

Lemma unpackRWRQ_rejects_non_request_witness :
  unpackOpcode (bs [0; 4; 0; 1]) = Ok 4 /\
  (exists x, unpackRWRQ (bs [0; 4; 0; 1]) = Raise x /\ exn_cls x = NameError) /\
  (forall t, unpackRWRQ (bs [0; 4; 0; 1]) <> Ok t).
Proof.
  split; [reflexivity|].
  apply (unpackRWRQ_rejects_non_request (bs [0; 4; 0; 1]) 4);
    [reflexivity | right; left; reflexivity].
Defined.

(** ** C1 *)

Lemma packDATA_raises (data blockNum : pyval) :
  packDATA data blockNum =
  raise AttributeError (lit "'bytearray' object has no attribute 'extebd'").
Proof. reflexivity. Qed.

Lemma packACK_raises (blockNum : pyval) :
  packACK blockNum = raise NameError (lit "name 'Opcode' is not defined").
Proof. reflexivity. Qed.

(** C1, as the code has it: no Data and no Ack packet is ever encoded, so
    decoding the encoding gives no packet back.  [packDATA] stops at the
    attribute [extebd] of its bytearray, [packACK] at the name [Opcode]. *)
Theorem encode_decode_roundtrip_raises :
  (forall data blockNum,
     bind (packDATA data blockNum) unpackDATA =
     raise AttributeError (lit "'bytearray' object has no attribute 'extebd'")) /\
  (forall blockNum,
     bind (packACK blockNum) unpackACK =
     raise NameError (lit "name 'Opcode' is not defined")).
Proof.
  split; intros.
  - rewrite packDATA_raises. reflexivity.
  - rewrite packACK_raises. reflexivity.
Qed.

(** ** C7 *)

Lemma short_packet_cases (packet : bytes) :
  (List.length packet < 2)%nat -> packet = [] \/ exists b, packet = [b].
Proof.
  destruct packet as [|b [|b' packet]]; cbn; intros H.
  - now left.
  - right; now exists b.
  - lia.
Qed.

Lemma slice_0_2_short (packet : bytes) :
  (List.length packet < 2)%nat -> slice packet 0 2 = packet.
Proof.
  intros H. destruct (short_packet_cases packet H) as [-> | [b ->]]; reflexivity.
Qed.

Lemma find0_short (packet : bytes) :
  (List.length packet < 2)%nat -> find0 packet 2 = -1.
Proof.
  intros H. destruct (short_packet_cases packet H) as [-> | [b ->]]; reflexivity.
Qed.

(** C7, amended: no decoder checks the length.  On an input shorter than 2
    bytes [unpackOpcode] reads the bytes that are there as a big-endian
    integer [c], returns it when it is one of 1..5 and fails with
    UnknownOpcodeException otherwise; [unpackRWRQ] never returns a request
    on such an input, and fails with MalformedPacketException when [c] is
    RRQ or WRQ. *)
Theorem unpack_short_input (packet : bytes) :
  (List.length packet < 2)%nat ->
  let c := int_from_bytes packet in
  (1 <= c <= 5 -> unpackOpcode packet = Ok c) /\
  (~ 1 <= c <= 5 ->
   unpackOpcode packet =
   raise UnknownOpcodeException (lit "Unknown Opcode '" ++ str_of_int c ++ lit "'")) /\
  (c = 1 \/ c = 2 ->
   unpackRWRQ packet =
   raise MalformedPacketException (lit "Couldn't find filename termination byte")) /\
  (forall t, unpackRWRQ packet <> Ok t).
Proof.
  intros Hlen c.
  assert (Hs : slice packet 0 2 = packet) by now apply slice_0_2_short.
  assert (Hop : 1 <= c <= 5 -> unpackOpcode packet = Ok c).
  { intros Hc. apply unpackOpcode_Ok. rewrite Hs. now split. }
  assert (Hmal : c = 1 \/ c = 2 ->
                 unpackRWRQ packet =
                 raise MalformedPacketException
                   (lit "Couldn't find filename termination byte")).
  { intros Hc. unfold unpackRWRQ. rewrite Hop by lia.
    destruct Hc as [-> | ->]; cbn; rewrite (find0_short packet Hlen); reflexivity. }
  repeat split; auto.
  - intros Hc. destruct (unpackOpcode packet) as [c' | x] eqn:E.
    + apply unpackOpcode_Ok in E. rewrite Hs in E. fold c in E. lia.
    + apply unpackOpcode_Raise in E. rewrite Hs in E. fold c in E.
      destruct E as [_ ->]. reflexivity.
  - intros t Ht.
    destruct (unpackOpcode packet) as [c' | x] eqn:E.
    + pose proof E as E'. apply unpackOpcode_Ok in E'. rewrite Hs in E'. fold c in E'.
      destruct E' as [-> Hc].
      assert (Hcases : (c = 1 \/ c = 2) \/ (c = 3 \/ c = 4 \/ c = 5)) by lia.
      destruct Hcases as [H12 | H345].
      * rewrite (Hmal H12) in Ht. discriminate.
      * rewrite (unpackRWRQ_non_request_NameError packet c E H345) in Ht. discriminate.
    + unfold unpackRWRQ in Ht. rewrite E in Ht. discriminate.
Qed.

Lemma unpack_short_input_witness :
  (List.length (bs [1]%Z) < 2)%nat /\
  unpackOpcode (bs [1]) = Ok 1 /\
  unpackRWRQ (bs [1]) =
  raise MalformedPacketException (lit "Couldn't find filename termination byte").
Proof.
  assert (H : (List.length (bs [1]%Z) < 2)%nat) by (cbn; lia).
  split; [exact H|].
  destruct (unpack_short_input (bs [1]) H) as (Hop & _ & Hmal & _).
  split.
  - apply Hop. cbn. lia.
  - apply Hmal. left. reflexivity.
Defined.

(** C7 as stated fails: the single byte 3 is shorter than 2 bytes, and it
    is decoded, as opcode 3 and as a Data packet with block number 0 and no
    payload; nothing fails with MalformedPacketException. *)
Lemma short_input_counterexample :
  (List.length (bs [3]%Z) < 2)%nat /\
  unpackOpcode (bs [3]) = Ok 3 /\
  unpackDATA (bs [3]) = Ok (3, 0, []) /\
  unpackACK (bs [4]) = Ok (4, 0) /\
  unpackOpcode [] = raise UnknownOpcodeException (lit "Unknown Opcode '0'").
Proof.
  repeat split; cbn; lia.
Qed.

(** ** The read session: one turn of the loop *)

Lemma socket_Timeout_raises : socket_Timeout = Raise no_Timeout.
Proof. reflexivity. Qed.

Lemma packERROR_wire (code : Z) (msg : pystr) :
  0 <= code <= 7 ->
  packERROR (AInt code) msg =
  bind (encode_ascii msg) (fun a => Ok (error_packet code a)).
Proof.
  intros H.
  assert (Hc : code = 0 \/ code = 1 \/ code = 2 \/ code = 3 \/
               code = 4 \/ code = 5 \/ code = 6 \/ code = 7) by lia.
  destruct Hc as [-> | [-> | [-> | [-> | [-> | [-> | [-> | ->]]]]]]];
    unfold packERROR, error_packet; cbn;
    destruct (encode_ascii msg); reflexivity.
Qed.

Lemma Errors_ILLEGAL_OPERATION :
  dict_getitem Errors (key "ILLEGAL_OPERATION") = Ok (AInt 4).
Proof. reflexivity. Qed.

Lemma Errors_ACCESS_VIOLATION :
  dict_getitem Errors (key "ACCESS_VIOLATION") = Ok (AInt 2).
Proof. reflexivity. Qed.

Lemma Errors_FILE_NOT_FOUND :
  dict_getitem Errors (key "FILE_NOT_FOUND") = Ok (AInt 1).
Proof. reflexivity. Qed.

Lemma Opcodes_RRQ : dict_getitem Opcodes (key "RRQ") = Ok (AInt 1).
Proof. reflexivity. Qed.

Lemma Opcodes_WRQ : dict_getitem Opcodes (key "WRQ") = Ok (AInt 2).
Proof. reflexivity. Qed.

Lemma send_phase_raises (peer : address) (l : RRQ.locals) :
  RRQ.sendDATA l = true -> send_phase peer l = ([], Throw no_Timeout).
Proof.
  intros H. unfold send_phase. rewrite H. reflexivity.
Qed.

Lemma send_phase_idle (peer : address) (l : RRQ.locals) :
  RRQ.sendDATA l = false -> send_phase peer l = ([], Next l).
Proof.
  intros H. unfold send_phase. rewrite H. reflexivity.
Qed.

Lemma iteration_new_block_raises (peer : address) (file : bytes)
    (l : RRQ.locals) (evs : list event) :
  RRQ.ackBlock l = RRQ.dataBlock l ->
  iteration peer file l evs = (([], Throw no_Timeout), evs).
Proof.
  intros H. unfold iteration. rewrite H, Z.eqb_refl.
  rewrite send_phase_raises by reflexivity. reflexivity.
Qed.


Lemma loop_initial_raises (fuel : nat) (peer : address) (file : bytes)
    (evs : list event) :
  loop (S fuel) peer file initial evs = (([], Throw no_Timeout), evs).
Proof.
  cbn [loop]. rewrite iteration_new_block_raises by reflexivity. reflexivity.
Qed.

Lemma handleRRQ_raises (store : storage) (fuel : nat) (peer : address)
    (filename mode : pystr) (file : bytes) (evs : list event) :
  store filename = Ok file ->
  handleRRQ store (S fuel) peer filename mode evs = (([], Throw no_Timeout), evs).
Proof.
  intros H. unfold handleRRQ. rewrite H. cbn [seq_py try_except].
  rewrite loop_initial_raises. reflexivity.
Qed.

Lemma unpackACK_other_opcode (packet : bytes) (c : Z) :
  unpackOpcode packet = Ok c -> c <> 4 ->
  exists name,
    dict_getitem Opcodes (PInt c) = Ok (AStr name) /\
    unpackACK packet =
    raise IllegalOperationException
      (lit "Expected ACK packet, but got '" ++ name ++ lit "'").
Proof.
  intros H Hc. pose proof H as H'. apply unpackOpcode_Ok in H'. destruct H' as [_ Hr].
  unfold unpackACK. rewrite H.
  assert (Hcases : c = 1 \/ c = 2 \/ c = 3 \/ c = 5) by lia.
  destruct Hcases as [-> | [-> | [-> | ->]]]; eexists; split; reflexivity.
Qed.

(** ** C9 *)



(** ** C5 *)





(** ** C4 *)

(** What the wait for an ACK can send: nothing, or one Error packet with
    the code ILLEGAL_OPERATION to the peer, after which the handler
    returns. *)
Lemma recv_phase_out (peer : address) (l : RRQ.locals) (evs : list event) :
  fst (fst (recv_phase peer l evs)) = [] \/
  exists a, fst (recv_phase peer l evs) = ([(error_packet 4 a, peer)], Return).
Proof.
  unfold recv_phase. destruct (RRQ.readACK l); [|now left].
  destruct evs as [|[from payload|] evs]; cbn [recv]; try (now left).
  cbn [seq_py].
  destruct (unpackACK (firstn 1024 payload)) as [[opcode block]|x] eqn:E.
  - cbn [seq_py]. destruct (block =? RRQ.dataBlock l); now left.
  - cbn -[packERROR dict_getitem].
    destruct (exn_class_eqb (exn_cls x) IllegalOperationException); cbn [orb].
    + rewrite Errors_ILLEGAL_OPERATION. cbn [seq_py].
      rewrite packERROR_wire by lia.
      destruct (encode_ascii (exn_str x)) as [a|y]; cbn.
      * right. now exists a.
      * now left.
    + now left.
Qed.





(** ** C3 *)





(** ** C2 and C6 *)

(** The blocks that the loop prepares for a file of 1024 bytes, were each
    one sent and acknowledged: 512 bytes, 512 bytes, and none. *)
Lemma blocks_of_1024 :
  let file := file_of_size 1024 in
  let l1 := new_block file initial in
  let l2 := new_block file (on_ack 1 (on_sent l1)) in
  let l3 := new_block file (on_ack 2 (on_sent l2)) in
  RRQ.data l1 = PBytes (firstn 512 file) /\
  RRQ.data l2 = PBytes (skipn 512 file) /\
  RRQ.data l3 = PBytes [] /\
  finished (on_ack 2 (on_sent l2)) = false /\
  finished (on_ack 3 (on_sent l3)) = true.
Proof. vm_compute. repeat split. Qed.

(** C2, as the code has it: for a file of 100 bytes the handler sends no
    Data block and never waits for an ACK.  The block it prepares holds the
    first 99 bytes of the file (the slice ends at -1); sending it stops in
    [packDATA], and the handler is left by an AttributeError. *)
Theorem read_100_bytes_sends_nothing (fuel : nat) (evs : list event) :
  let file := file_of_size 100 in
  handleRRQ (store_of file) (S fuel) client (lit "f") (lit "OCTET") evs =
    (([], Throw no_Timeout), evs) /\
  RRQ.data (new_block file initial) = PBytes (file_of_size 99) /\
  sendData client (PInt 1) (PBytes (file_of_size 99)) =
    ([], raise AttributeError (lit "'bytearray' object has no attribute 'extebd'")).
Proof.
  intros file. split; [|split].
  - apply (handleRRQ_raises (store_of file) fuel client (lit "f") (lit "OCTET") file).
    reflexivity.
  - vm_compute. reflexivity.
  - reflexivity.
Qed.

(** C6, as the code has it: for a file of 1024 bytes the handler sends no
    Data block, whatever ACKs the client is ready to send; it is left by an
    AttributeError at the first block. *)
Theorem read_1024_bytes_sends_nothing (fuel : nat) (evs : list event) :
  let file := file_of_size 1024 in
  handleRRQ (store_of file) (S fuel) client (lit "f") (lit "OCTET") evs =
    (([], Throw no_Timeout), evs) /\
  sendData client (PInt 1) (PBytes (firstn 512 file)) =
    ([], raise AttributeError (lit "'bytearray' object has no attribute 'extebd'")).
Proof.
  intros file. split.
  - apply (handleRRQ_raises (store_of file) fuel client (lit "f") (lit "OCTET") file).
    reflexivity.
  - reflexivity.
Qed.

(** ** C8 *)

Lemma handle_UnknownMode (store : storage) (fuel : nat) (packet : bytes)
    (from : address) (evs : list event) (msg : pystr) (a : bytes) :
  unpackRWRQ packet = raise UnknownModeException msg ->
  encode_ascii msg = Ok a ->
  handle store fuel packet from evs =
  Handled None [(error_packet 2 a, from)] Return evs.
Proof.
  intros H Ha. unfold handle. rewrite H.
  cbn -[packERROR dict_getitem]. unfold reject.
  rewrite Errors_ACCESS_VIOLATION. cbn [seq_py].
  rewrite packERROR_wire by lia. cbn [exn_str]. rewrite Ha. reflexivity.
Qed.

Lemma handle_EmptyPath (store : storage) (fuel : nat) (packet : bytes)
    (from : address) (evs : list event) (msg : pystr) (a : bytes) :
  unpackRWRQ packet = raise EmptyPathException msg ->
  encode_ascii msg = Ok a ->
  handle store fuel packet from evs =
  Handled None [(error_packet 1 a, from)] Return evs.
Proof.
  intros H Ha. unfold handle. rewrite H.
  cbn -[packERROR dict_getitem]. unfold reject.
  rewrite Errors_FILE_NOT_FOUND. cbn [seq_py].
  rewrite packERROR_wire by lia. cbn [exn_str]. rewrite Ha. reflexivity.
Qed.

Lemma utf8_run_Raise (b : bytes) :
  forall need acc lo hi x,
    utf8_run b need acc lo hi = Raise x -> exn_cls x = UnicodeDecodeError.
Proof.
  induction b as [|c b IH]; intros need acc lo hi x; cbn [utf8_run].
  - destruct need; [discriminate|]. intros H; inversion H; reflexivity.
  - destruct need as [|k].
    + destruct (Byte.to_N c <? 128)%N.
      * destruct (utf8_run b 0 0 128 191) eqn:E; cbn; [discriminate|].
        intros H; inversion H; subst. now apply IH in E.
      * destruct (utf8_lead (Byte.to_N c)) as [[[[k lo'] hi'] bits]|].
        -- apply IH.
        -- intros H; inversion H; reflexivity.
    + destruct ((lo <=? Byte.to_N c) && (Byte.to_N c <=? hi))%N.
      * destruct k.
        -- destruct (utf8_run b 0 0 128 191) eqn:E; cbn; [discriminate|].
           intros H; inversion H; subst. now apply IH in E.
        -- apply IH.
      * intros H; inversion H; reflexivity.
Qed.

(** The text of an EmptyPathException of [unpackRWRQ] is always the same,
    and it is ASCII. *)
Lemma unpackRWRQ_EmptyPath_text (packet : bytes) (x : exn) :
  unpackRWRQ packet = Raise x -> exn_cls x = EmptyPathException ->
  exn_str x = lit "Filename cannot be empty".
Proof.
  unfold unpackRWRQ. intros H Hc. revert H.
  destruct (unpackOpcode packet) as [c|y] eqn:Eop; cbn [bind].
  - rewrite Opcodes_RRQ, Opcodes_WRQ. cbn [bind atom_eqb].
    case_if; [cbn; other_class Hc|].
    cbv zeta. case_if; [other_class Hc|].
    destruct (decode_utf8 (slice packet 2 (find0 packet 2))) as [filename|y] eqn:Ef;
      cbn [bind].
    2:{ intros H; inversion H; subst. apply utf8_run_Raise in Ef. congruence. }
    case_if; [other_class Hc|].
    destruct (decode_utf8 (slice packet (find0 packet 2 + 1)
                             (find0 packet (find0 packet 2 + 1))))
      as [mode|y] eqn:Em; cbn [bind].
    2:{ intros H; inversion H; subst. apply utf8_run_Raise in Em. congruence. }
    case_if.
    + intros H; inversion H; subst. reflexivity.
    + case_if; other_class Hc.
  - intros H; inversion H; subst. apply unpackOpcode_Raise in Eop.
    destruct Eop as [_ ->]. cbn in Hc. discriminate Hc.
Qed.

Lemma handle_empty_filename (store : storage) (fuel : nat) (packet : bytes)
    (from : address) (evs : list event) (x : exn) :
  unpackRWRQ packet = Raise x -> exn_cls x = EmptyPathException ->
  handle store fuel packet from evs =
  Handled None
    [(error_packet 1 (ascii_bytes "Filename cannot be empty"), from)] Return evs.
Proof.
  intros H Hc. pose proof (unpackRWRQ_EmptyPath_text packet x H Hc) as Ht.
  destruct x as [c msg]. cbn in Hc, Ht. subst c msg.
  now apply handle_EmptyPath with (msg := lit "Filename cannot be empty").
Qed.

(** A mode that is not ASCII text cannot be reported: the handler of
    UnknownModeException is left by the exception of [packERROR], and
    nothing is sent. *)
Lemma handle_UnknownMode_not_ascii (store : storage) (fuel : nat) (packet : bytes)
    (from : address) (evs : list event) (msg : pystr) (y : exn) :
  unpackRWRQ packet = raise UnknownModeException msg ->
  encode_ascii msg = Raise y ->
  handle store fuel packet from evs = Handled None [] (Throw y) evs.
Proof.
  intros H Ha. unfold handle. rewrite H.
  cbn -[packERROR dict_getitem]. unfold reject.
  rewrite Errors_ACCESS_VIOLATION. cbn [seq_py].
  rewrite packERROR_wire by lia. cbn [exn_str]. rewrite Ha. reflexivity.
Qed.

(** C8, amended: when the decoding of a request fails with
    UnknownModeException, [handle] sends one Error packet with the code
    ACCESS_VIOLATION (2) to the address the request came from; when it
    fails with EmptyPathException, one Error packet with the code
    FILE_NOT_FOUND (1).  The text of the packet is the text of the
    exception, which has to be ASCII.  In both cases [handle] returns
    without entering a transfer handler. *)
Theorem handle_decode_failure (store : storage) (fuel : nat) (packet : bytes)
    (from : address) (evs : list event) (c : exn_class) (msg : pystr) (a : bytes) :
  unpackRWRQ packet = raise c msg ->
  c = UnknownModeException \/ c = EmptyPathException ->
  encode_ascii msg = Ok a ->
  handle store fuel packet from evs =
  Handled None [(error_packet (answer_code c) a, from)] Return evs.
Proof.
  intros H [-> | ->] Ha.
  - now apply handle_UnknownMode with (msg := msg).
  - now apply handle_EmptyPath with (msg := msg).
Qed.

Lemma handle_decode_failure_witness :
  let packet := bs [0; 1] ++ [x00] ++ ascii_bytes "octet" ++ [x00] in
  unpackRWRQ packet = raise EmptyPathException (lit "Filename cannot be empty") /\
  handle (store_of []) 4 packet client [] =
  Handled None
    [(error_packet 1 (ascii_bytes "Filename cannot be empty"), client)] Return [].
Proof.
  intros packet.
  assert (H : unpackRWRQ packet =
              raise EmptyPathException (lit "Filename cannot be empty"))
    by reflexivity.
  split; [exact H|].
  apply (handle_decode_failure (store_of []) 4 packet client [] EmptyPathException
           (lit "Filename cannot be empty")
           (ascii_bytes "Filename cannot be empty") H).
  - right; reflexivity.
  - reflexivity.
Defined.

(** C8 as stated fails: the read request for the file "a" in the mode
    "foo" fails to decode with UnknownModeException, and the Error packet
    that [handle] sends carries the code 2, not the code 1. *)
Lemma unknown_mode_counterexample :
  let packet := bs [0; 1] ++ ascii_bytes "a" ++ [x00] ++ ascii_bytes "foo" ++ [x00] in
  unpackRWRQ packet = raise UnknownModeException (lit "Mode 'foo' not recognized") /\
  handle (store_of []) 4 packet client [] =
  Handled None
    [(error_packet 2 (ascii_bytes "Mode 'foo' not recognized"), client)] Return [] /\
  error_packet 2 (ascii_bytes "Mode 'foo' not recognized") <>
  error_packet 1 (ascii_bytes "Mode 'foo' not recognized").
Proof.
  intros packet. split; [reflexivity|]. split; [reflexivity|].
  vm_compute. discriminate.
Qed.

(** ** The decoders on the wire format *)

Lemma slice_nonneg {A : Type} (l : list A) (s e : Z) :
  0 <= s <= e ->
  slice l s e = firstn (Z.to_nat (e - s)) (skipn (Z.to_nat s) l).
Proof.
  intros H. unfold slice, slice_bound.
  destruct (Z.ltb_spec s 0); [lia|]. destruct (Z.ltb_spec e 0); [lia|].
  set (n := Z.of_nat (List.length l)).
  assert (Hn : List.length l = Z.to_nat n) by (unfold n; lia).
  destruct (Z.le_gt_cases e n) as [He | He].
  - rewrite !Z.min_l by lia. reflexivity.
  - rewrite (Z.min_r e n) by lia.
    destruct (Z.le_gt_cases s n) as [Hs | Hs].
    + rewrite (Z.min_l s n) by lia.
      rewrite !firstn_all2; [reflexivity | |]; rewrite length_skipn; lia.
    + rewrite (Z.min_r s n) by lia.
      rewrite !skipn_all2 by lia. now rewrite !firstn_nil.
Qed.

Lemma slice_from_nonneg {A : Type} (l : list A) (s : Z) :
  0 <= s -> slice_from l s = skipn (Z.to_nat s) l.
Proof.
  intros H. unfold slice_from, slice_bound.
  destruct (Z.ltb_spec s 0); [lia|].
  destruct (Z.le_gt_cases s (Z.of_nat (List.length l))) as [Hs | Hs].
  - now rewrite Z.min_l by lia.
  - rewrite Z.min_r by lia. rewrite !skipn_all2 by lia. reflexivity.
Qed.

Lemma to_N_byte_of_Z (z : Z) : Z.of_N (Byte.to_N (byte_of_Z z)) = z mod 256.
Proof.
  assert (Hm : 0 <= z mod 256 < 256) by (apply Z.mod_pos_bound; lia).
  unfold byte_of_Z. destruct (Byte.of_N (Z.to_N (z mod 256))) as [b|] eqn:E.
  - apply Byte.to_of_N in E. rewrite E. lia.
  - apply Byte.of_N_None_iff in E. lia.
Qed.

Lemma to_bytes2_Ok (n : Z) (a : bytes) :
  to_bytes2 n = Ok a ->
  0 <= n < 65536 /\ a = [byte_of_Z (n / 256); byte_of_Z n].
Proof.
  unfold to_bytes2.
  destruct (Z.leb_spec 0 n); destruct (Z.ltb_spec n 65536); cbn;
    intros E; inversion E. split; [lia | reflexivity].
Qed.

Lemma int_from_to_bytes2 (n : Z) :
  0 <= n < 65536 -> int_from_bytes [byte_of_Z (n / 256); byte_of_Z n] = n.
Proof.
  intros H. unfold int_from_bytes. cbn [fold_left].
  rewrite !to_N_byte_of_Z.
  rewrite (Z.mod_small (n / 256)) by (split; [apply Z.div_pos; lia | apply Z.div_lt_upper_bound; lia]).
  pose proof (Z.div_mod n 256). lia.
Qed.

Lemma slice_header {A : Type} (b0 b1 b2 b3 : A) (rest : list A) :
  slice (b0 :: b1 :: b2 :: b3 :: rest) 0 2 = [b0; b1] /\
  slice (b0 :: b1 :: b2 :: b3 :: rest) 2 4 = [b2; b3] /\
  slice_from (b0 :: b1 :: b2 :: b3 :: rest) 4 = rest.
Proof.
  rewrite !slice_nonneg, slice_from_nonneg by lia. repeat split.
Qed.

(** The Data packet of the wire format is decoded to its block number and
    payload: [unpackDATA] is the inverse of the encoding that [packDATA]
    was to build. *)
Lemma unpackDATA_wire (n : Z) (a payload : bytes) :
  to_bytes2 n = Ok a ->
  unpackDATA (bs [0; 3] ++ a ++ payload) = Ok (3, n, payload).
Proof.
  intros Ha. apply to_bytes2_Ok in Ha. destruct Ha as [Hn ->].
  change (bs [0; 3] ++ [byte_of_Z (n / 256); byte_of_Z n] ++ payload)
    with (x00 :: x03 :: byte_of_Z (n / 256) :: byte_of_Z n :: payload).
  destruct (slice_header x00 x03 (byte_of_Z (n / 256)) (byte_of_Z n) payload)
    as (H02 & H24 & H4).
  unfold unpackDATA, unpackOpcode. rewrite H02, H24, H4.
  rewrite int_from_to_bytes2 by assumption. reflexivity.
Qed.

(** The Ack packet of the wire format is decoded to its block number. *)
Lemma unpackACK_wire (n : Z) (a : bytes) :
  to_bytes2 n = Ok a ->
  unpackACK (bs [0; 4] ++ a) = Ok (4, n).
Proof.
  intros Ha. apply to_bytes2_Ok in Ha. destruct Ha as [Hn ->].
  change (bs [0; 4] ++ [byte_of_Z (n / 256); byte_of_Z n])
    with (x00 :: x04 :: byte_of_Z (n / 256) :: byte_of_Z n :: []).
  destruct (slice_header x00 x04 (byte_of_Z (n / 256)) (byte_of_Z n) [])
    as (H02 & H24 & H4).
  unfold unpackACK, unpackOpcode. rewrite H02, H24.
  rewrite int_from_to_bytes2 by assumption. reflexivity.
Qed.

(** ** The last byte of a short file *)

Lemma slice_to_last {A : Type} (l : list A) : slice l 0 (-1) = removelast l.
Proof.
  unfold slice, slice_bound.
  destruct (Z.ltb_spec 0 0); [lia|]. destruct (Z.ltb_spec (-1) 0); [|lia].
  rewrite Z.min_l by lia. change (Z.to_nat 0) with 0%nat. cbn [skipn].
  destruct l as [|b l].
  - reflexivity.
  - rewrite Z.max_l by (cbn [List.length]; lia). rewrite Z.sub_0_r.
    replace (Z.to_nat (-1 + Z.of_nat (List.length (b :: l))))
      with (Nat.pred (List.length (b :: l))) by (cbn [List.length]; lia).
    symmetry. apply removelast_firstn_len.
Qed.

(** The first block of a file shorter than 512 bytes is the file without
    its last byte: the slice ends at -1. *)
Lemma first_block_drops_last_byte (file : bytes) :
  (List.length file < 512)%nat ->
  RRQ.data (new_block file initial) = PBytes (removelast file) /\
  RRQ.e (new_block file initial) = -1.
Proof.
  intros H. unfold new_block, initial. cbn [RRQ.data RRQ.e RRQ.s].
  change (-512 + 512) with 0. change (0 + 512) with 512.
  destruct (Z.gtb_spec 512 (Z.of_nat (List.length file))); [|lia].
  split; [|reflexivity]. f_equal. apply slice_to_last.
Qed.

(** * Further properties of the module *)

(** ** The opcode *)

Lemma slice_0_2 {A : Type} (l : list A) : slice l 0 2 = firstn 2 l.
Proof. rewrite slice_nonneg by lia. reflexivity. Qed.

Lemma byte_value_bound (b : byte) : 0 <= Z.of_N (Byte.to_N b) < 256.
Proof. pose proof (Byte.to_N_bounded b). lia. Qed.

Lemma int_from_two_bytes_bound (b : bytes) :
  (List.length b <= 2)%nat -> 0 <= int_from_bytes b < 65536.
Proof.
  destruct b as [|b0 [|b1 [|b2 b]]]; cbn [List.length]; intros H; try lia.
  - cbn. lia.
  - unfold int_from_bytes. cbn [fold_left]. pose proof (byte_value_bound b0). lia.
  - unfold int_from_bytes. cbn [fold_left].
    pose proof (byte_value_bound b0). pose proof (byte_value_bound b1). lia.
Qed.

(** X1: [unpackOpcode] reads at most the first two bytes of the packet as a
    big-endian integer [c], which is below 65536; it returns [c] exactly
    when [c] is one of 1..5 (the names that the table [Opcodes] also holds
    as keys let no integer in), and raises UnknownOpcodeException with the
    text "Unknown Opcode 'c'" otherwise. *)
Theorem unpackOpcode_spec (packet : bytes) :
  let c := int_from_bytes (firstn 2 packet) in
  0 <= c < 65536 /\
  (1 <= c <= 5 -> unpackOpcode packet = Ok c) /\
  (~ 1 <= c <= 5 ->
   unpackOpcode packet =
   raise UnknownOpcodeException (lit "Unknown Opcode '" ++ str_of_int c ++ lit "'")) /\
  (forall c', unpackOpcode packet = Ok c' -> c' = c /\ 1 <= c' <= 5).
Proof.
  intros c. split; [|split; [|split]].
  - apply int_from_two_bytes_bound. rewrite length_firstn. lia.
  - intros Hc. apply unpackOpcode_Ok. rewrite slice_0_2. now split.
  - intros Hc. destruct (unpackOpcode packet) as [c'|x] eqn:E.
    + apply unpackOpcode_Ok in E. rewrite slice_0_2 in E. fold c in E. lia.
    + apply unpackOpcode_Raise in E. rewrite slice_0_2 in E. fold c in E.
      destruct E as [_ ->]. reflexivity.
  - intros c' E. apply unpackOpcode_Ok in E. rewrite slice_0_2 in E. exact E.
Qed.

(** ** packERROR *)


Lemma encode_ascii_length (msg : pystr) (a : bytes) :
  encode_ascii msg = Ok a -> List.length a = List.length msg.
Proof.
  revert a. induction msg as [|c msg IH]; cbn [encode_ascii]; intros a H.
  - inversion H. reflexivity.
  - destruct (c <? 128)%N; [|discriminate].
    destruct (encode_ascii msg) as [r|]; cbn [bind] in H; [|discriminate].
    inversion H; subst. cbn [List.length]. f_equal. now apply IH.
Qed.

Lemma encode_ascii_Raise (msg : pystr) (x : exn) :
  encode_ascii msg = Raise x -> exn_cls x = UnicodeEncodeError.
Proof.
  induction msg as [|c msg IH]; cbn [encode_ascii]; [discriminate|].
  destruct (c <? 128)%N.
  - destruct (encode_ascii msg) as [r|y]; cbn [bind]; [discriminate|].
    intros H; inversion H; subst. now apply IH.
  - intros H; inversion H. reflexivity.
Qed.


Lemma unpackDATA_other_opcode (packet : bytes) (c : Z) :
  unpackOpcode packet = Ok c -> c <> 3 ->
  exists name,
    dict_getitem Opcodes (PInt c) = Ok (AStr name) /\
    unpackDATA packet =
    raise IllegalOperationException
      (lit "Expected DATA packet, but got '" ++ name ++ lit "'").
Proof.
  intros H Hc. pose proof H as H'. apply unpackOpcode_Ok in H'. destruct H' as [_ Hr].
  unfold unpackDATA. rewrite H.
  assert (Hcases : c = 1 \/ c = 2 \/ c = 4 \/ c = 5) by lia.
  destruct Hcases as [-> | [-> | [-> | ->]]]; eexists; split; reflexivity.
Qed.

Lemma unpackOpcode_error_packet (code : Z) (a : bytes) :
  unpackOpcode (error_packet code a) = Ok 5.
Proof.
  apply unpackOpcode_Ok. rewrite slice_0_2. split; [reflexivity | lia].
Qed.

(** X2: [packERROR] with a code of 0..7 and a text of ASCII characters
    gives the bytes 0, 5, 0, code, the text and a zero byte, 5 bytes more
    than the text.  The module's own decoders take the packet for what it
    is: [unpackOpcode] reads the opcode 5, and [unpackACK] and [unpackDATA]
    refuse it with IllegalOperationException, naming ERROR. *)
Theorem packERROR_spec (code : Z) (msg : pystr) (a : bytes) :
  0 <= code <= 7 ->
  encode_ascii msg = Ok a ->
  packERROR (AInt code) msg = Ok (error_packet code a) /\
  List.length (error_packet code a) = (5 + List.length msg)%nat /\
  unpackOpcode (error_packet code a) = Ok 5 /\
  unpackACK (error_packet code a) =
    raise IllegalOperationException (lit "Expected ACK packet, but got 'ERROR'") /\
  unpackDATA (error_packet code a) =
    raise IllegalOperationException (lit "Expected DATA packet, but got 'ERROR'").
Proof.
  intros Hc Ha. rewrite packERROR_wire by assumption. rewrite Ha.
  pose proof (unpackOpcode_error_packet code a) as Hop.
  repeat split.
  - unfold error_packet. rewrite !length_app.
    rewrite (encode_ascii_length msg a Ha). cbn. lia.
  - exact Hop.
  - destruct (unpackACK_other_opcode _ 5 Hop) as (name & Hn & ->); [lia|].
    cbn in Hn. inversion Hn. reflexivity.
  - destruct (unpackDATA_other_opcode _ 5 Hop) as (name & Hn & ->); [lia|].
    cbn in Hn. inversion Hn. reflexivity.
Qed.

Lemma packERROR_spec_witness :
  packERROR (AInt 1) (lit "File not found") =
    Ok (error_packet 1 (ascii_bytes "File not found")) /\
  List.length (error_packet 1 (ascii_bytes "File not found")) = 19%nat.
Proof.
  destruct (packERROR_spec 1 (lit "File not found") (ascii_bytes "File not found"))
    as (H1 & H2 & _); [lia | reflexivity |].
  split; [exact H1 | exact H2].
Defined.



(** X4: the table [Errors] holds the names of the codes as keys too, so a
    name passes the test [code not in Errors] of [packERROR]; the call
    then raises AttributeError (a [str] has no [to_bytes]), not
    UnknownErrorCodeException. *)
Theorem packERROR_name_as_code (name msg : pystr) :
  dict_contains Errors (AStr name) = true ->
  packERROR (AStr name) msg =
  raise AttributeError (lit "'str' object has no attribute 'to_bytes'").
Proof.
  intros H. unfold packERROR. rewrite H. reflexivity.
Qed.

Lemma packERROR_name_as_code_witness :
  dict_contains Errors (AStr (lit "FILE_NOT_FOUND")) = true /\
  packERROR (AStr (lit "FILE_NOT_FOUND")) (lit "no such file") =
  raise AttributeError (lit "'str' object has no attribute 'to_bytes'").
Proof.
  split; [reflexivity|].
  apply (packERROR_name_as_code (lit "FILE_NOT_FOUND") (lit "no such file")).
  reflexivity.
Defined.

Lemma unpackOpcode_spec_witness :
  unpackOpcode (bs [0; 3; 0; 1]) = Ok 3 /\
  unpackOpcode (bs [1; 0]) =
  raise UnknownOpcodeException (lit "Unknown Opcode '256'").
Proof.
  split.
  - destruct (unpackOpcode_spec (bs [0; 3; 0; 1])) as (_ & H & _).
    apply H. cbn. lia.
  - destruct (unpackOpcode_spec (bs [1; 0])) as (_ & _ & H & _).
    apply H. cbn. lia.
Defined.

(** ** The decoders of Data and Ack packets *)

Lemma slice_2_4 {A : Type} (l : list A) : slice l 2 4 = firstn 2 (skipn 2 l).
Proof. rewrite slice_nonneg by lia. reflexivity. Qed.

Lemma slice_from_4 {A : Type} (l : list A) : slice_from l 4 = skipn 4 l.
Proof. rewrite slice_from_nonneg by lia. reflexivity. Qed.

Lemma unpackDATA_opcode_3 (packet : bytes) :
  unpackOpcode packet = Ok 3 ->
  unpackDATA packet =
  Ok (3, int_from_bytes (firstn 2 (skipn 2 packet)), skipn 4 packet).
Proof.
  intros H. unfold unpackDATA. rewrite H. cbn [bind].
  change (dict_getitem Opcodes (key "DATA")) with (@Ok atom (AInt 3)).
  cbn [bind atom_eqb Z.eqb Pos.eqb negb].
  rewrite slice_2_4, slice_from_4. reflexivity.
Qed.

Lemma unpackACK_opcode_4 (packet : bytes) :
  unpackOpcode packet = Ok 4 ->
  unpackACK packet = Ok (4, int_from_bytes (firstn 2 (skipn 2 packet))).
Proof.
  intros H. unfold unpackACK. rewrite H. cbn [bind].
  change (dict_getitem Opcodes (key "ACK")) with (@Ok atom (AInt 4)).
  cbn [bind atom_eqb Z.eqb Pos.eqb negb]. rewrite slice_2_4. reflexivity.
Qed.

(** X5: [unpackDATA] on a packet with the opcode 3.  The block number is
    what the bytes 2 and 3 of the packet give, below 65536, and the data is
    everything from byte 4 on: the length of the data is not bounded (a
    payload of more than 512 bytes is taken), and bytes that are missing
    are not missed (a packet that ends early has the block number of the
    bytes that are there and no data). *)
Theorem unpackDATA_accepts (packet : bytes) :
  unpackOpcode packet = Ok 3 ->
  let blockNum := int_from_bytes (firstn 2 (skipn 2 packet)) in
  unpackDATA packet = Ok (3, blockNum, skipn 4 packet) /\
  0 <= blockNum < 65536 /\
  List.length (skipn 4 packet) = (List.length packet - 4)%nat.
Proof.
  intros H blockNum. rewrite (unpackDATA_opcode_3 packet H). repeat split.
  - apply int_from_two_bytes_bound. rewrite length_firstn. lia.
  - apply int_from_two_bytes_bound. rewrite length_firstn. lia.
  - apply length_skipn.
Qed.

Lemma unpackDATA_accepts_witness :
  let packet := bs [0; 3; 1; 2] ++ file_of_size 600 in
  unpackDATA packet = Ok (3, 258, file_of_size 600) /\
  unpackDATA (bs [0; 3; 9]) = Ok (3, 9, []).
Proof.
  intros packet. split.
  - destruct (unpackDATA_accepts packet) as (H & _); [reflexivity|]. exact H.
  - destruct (unpackDATA_accepts (bs [0; 3; 9])) as (H & _); [reflexivity|]. exact H.
Defined.

(** X6: decoding is the inverse of the wire format of a Data packet.  For
    a block number [n] of 0..65535 (those [n.to_bytes(2, 'big')] accepts)
    and any payload, [unpackDATA] of the bytes 0, 3, the two bytes of [n]
    and the payload is [(3, n, payload)]. *)
Theorem unpackDATA_inverts_wire (n : Z) (a payload : bytes) :
  to_bytes2 n = Ok a ->
  unpackDATA (bs [0; 3] ++ a ++ payload) = Ok (3, n, payload).
Proof. apply unpackDATA_wire. Qed.

Lemma unpackDATA_inverts_wire_witness :
  to_bytes2 65535 = Ok (bs [255; 255]) /\
  unpackDATA (bs [0; 3] ++ bs [255; 255] ++ file_of_size 512) =
  Ok (3, 65535, file_of_size 512).
Proof.
  split; [reflexivity|].
  apply (unpackDATA_inverts_wire 65535 (bs [255; 255]) (file_of_size 512)).
  reflexivity.
Defined.

(** X7: [unpackACK] on a packet with the opcode 4.  The block number is
    what the bytes 2 and 3 give, below 65536; the packet need not be 4
    bytes long: what follows byte 3 is ignored, and a packet that ends
    early is taken with the bytes that are there. *)
Theorem unpackACK_accepts (packet : bytes) :
  unpackOpcode packet = Ok 4 ->
  let blockNum := int_from_bytes (firstn 2 (skipn 2 packet)) in
  unpackACK packet = Ok (4, blockNum) /\
  0 <= blockNum < 65536 /\
  unpackACK (firstn 4 packet) = unpackACK packet.
Proof.
  intros H blockNum.
  pose proof unpackACK_opcode_4 as Hgen.
  assert (H4 : unpackOpcode (firstn 4 packet) = Ok 4).
  { apply unpackOpcode_Ok. apply unpackOpcode_Ok in H. rewrite slice_0_2 in *.
    destruct packet as [|b0 [|b1 [|b2 [|b3 packet]]]]; exact H. }
  repeat split.
  - now apply Hgen.
  - apply int_from_two_bytes_bound. rewrite length_firstn. lia.
  - apply int_from_two_bytes_bound. rewrite length_firstn. lia.
  - rewrite (Hgen _ H4), (Hgen _ H). do 3 f_equal.
    destruct packet as [|b0 [|b1 [|b2 [|b3 packet]]]]; reflexivity.
Qed.

Lemma unpackACK_accepts_witness :
  unpackACK (bs [0; 4; 0; 7; 99; 99]) = Ok (4, 7) /\
  unpackACK (bs [0; 4]) = Ok (4, 0).
Proof.
  split.
  - destruct (unpackACK_accepts (bs [0; 4; 0; 7; 99; 99])) as (H & _);
      [reflexivity | exact H].
  - destruct (unpackACK_accepts (bs [0; 4])) as (H & _); [reflexivity | exact H].
Defined.

(** X8: decoding is the inverse of the wire format of an Ack packet, with
    or without bytes after it: for a block number [n] of 0..65535,
    [unpackACK] of the bytes 0, 4, the two bytes of [n] and anything is
    [(4, n)]. *)
Theorem unpackACK_inverts_wire (n : Z) (a rest : bytes) :
  to_bytes2 n = Ok a ->
  unpackACK (bs [0; 4] ++ a ++ rest) = Ok (4, n).
Proof.
  intros Ha. apply to_bytes2_Ok in Ha. destruct Ha as [Hn ->].
  change (bs [0; 4] ++ [byte_of_Z (n / 256); byte_of_Z n] ++ rest)
    with (x00 :: x04 :: byte_of_Z (n / 256) :: byte_of_Z n :: rest).
  destruct (slice_header x00 x04 (byte_of_Z (n / 256)) (byte_of_Z n) rest)
    as (H02 & H24 & H4).
  unfold unpackACK, unpackOpcode. rewrite H02, H24.
  rewrite int_from_to_bytes2 by assumption. reflexivity.
Qed.

Lemma unpackACK_inverts_wire_witness :
  to_bytes2 513 = Ok (bs [2; 1]) /\
  unpackACK (bs [0; 4] ++ bs [2; 1] ++ []) = Ok (4, 513).
Proof.
  split; [reflexivity|].
  apply (unpackACK_inverts_wire 513 (bs [2; 1]) []). reflexivity.
Defined.

(** X9: what [unpackACK] and [unpackDATA] refuse.  A packet with another of
    the opcodes 1..5 raises IllegalOperationException, whose text names the
    opcode found; a packet whose opcode [unpackOpcode] refuses raises the
    UnknownOpcodeException of [unpackOpcode].  No other exception leaves
    the two decoders. *)
Theorem decoders_refuse (packet : bytes) (x : exn) :
  unpackACK packet = Raise x \/ unpackDATA packet = Raise x ->
  (exn_cls x = IllegalOperationException /\
   exists c, unpackOpcode packet = Ok c) \/
  (exn_cls x = UnknownOpcodeException /\ unpackOpcode packet = Raise x).
Proof.
  intros H. destruct (unpackOpcode packet) as [c|y] eqn:Eop.
  - left. split; [|now exists c].
    destruct H as [H|H].
    + destruct (Z.eq_dec c 4) as [->|Hc].
      * pose proof (unpackACK_opcode_4 packet Eop) as Hok. congruence.
      * destruct (unpackACK_other_opcode packet c Eop Hc) as (name & _ & Hr).
        rewrite Hr in H. inversion H. reflexivity.
    + destruct (Z.eq_dec c 3) as [->|Hc].
      * pose proof (unpackDATA_opcode_3 packet Eop) as Hok. congruence.
      * destruct (unpackDATA_other_opcode packet c Eop Hc) as (name & _ & Hr).
        rewrite Hr in H. inversion H. reflexivity.
  - right.
    assert (x = y).
    { destruct H as [H|H]; [unfold unpackACK in H | unfold unpackDATA in H];
        rewrite Eop in H; cbn [bind] in H; now inversion H. }
    subst y. split; [|reflexivity].
    apply unpackOpcode_Raise in Eop. destruct Eop as [_ ->]. reflexivity.
Qed.

Lemma decoders_refuse_witness :
  unpackACK (bs [0; 3; 0; 1]) =
    raise IllegalOperationException (lit "Expected ACK packet, but got 'DATA'") /\
  (exn_cls (Exn IllegalOperationException (lit "Expected ACK packet, but got 'DATA'"))
     = IllegalOperationException /\
   exists c, unpackOpcode (bs [0; 3; 0; 1]) = Ok c).
Proof.
  assert (H : unpackACK (bs [0; 3; 0; 1]) =
              raise IllegalOperationException (lit "Expected ACK packet, but got 'DATA'"))
    by reflexivity.
  split; [exact H|].
  destruct (decoders_refuse (bs [0; 3; 0; 1]) _ (or_introl H)) as [Hl | [Hr _]].
  - exact Hl.
  - discriminate Hr.
Defined.

(** ** The decoder of requests *)

Lemma byte_eqb_x00 (b : byte) : Byte.eqb b x00 = true <-> Byte.to_N b = 0%N.
Proof.
  split.
  - intros H. apply Byte.byte_dec_bl in H. subst. reflexivity.
  - intros H. apply Byte.byte_dec_lb.
    assert (Hb : Byte.of_N (Byte.to_N b) = Some b) by apply Byte.of_to_N.
    rewrite H in Hb. cbn in Hb. inversion Hb. reflexivity.
Qed.

Lemma find0_from_plain (b rest : bytes) (i : Z) :
  plain b -> find0_from (b ++ x00 :: rest) i = i + Z.of_nat (List.length b).
Proof.
  intros H. revert i. induction H as [|c b Hc Hb IH]; intros i.
  - cbn. lia.
  - cbn [app find0_from List.length].
    destruct (Byte.eqb c x00) eqn:E.
    + apply byte_eqb_x00 in E. lia.
    + rewrite IH. lia.
Qed.

Lemma find0_from_none (b : bytes) (i : Z) :
  Forall (fun x => Byte.to_N x <> 0%N) b -> find0_from b i = -1.
Proof.
  intros H. revert i. induction H as [|c b Hc Hb IH]; intros i; cbn [find0_from].
  - reflexivity.
  - destruct (Byte.eqb c x00) eqn:E.
    + apply byte_eqb_x00 in E. contradiction.
    + apply IH.
Qed.

Lemma plain_no_zero (b : bytes) :
  plain b -> Forall (fun x => Byte.to_N x <> 0%N) b.
Proof. apply Forall_impl. intros x H. lia. Qed.

Lemma decode_utf8_plain (b : bytes) : plain b -> decode_utf8 b = Ok (text b).
Proof.
  unfold decode_utf8. induction 1 as [|c b Hc Hb IH]; cbn [utf8_run text map].
  - reflexivity.
  - destruct (N.ltb_spec (Byte.to_N c) 128); [|lia].
    rewrite IH. reflexivity.
Qed.

Lemma find0_at (pre b rest : bytes) :
  plain b ->
  find0 (pre ++ b ++ x00 :: rest) (Z.of_nat (List.length pre)) =
  Z.of_nat (List.length pre) + Z.of_nat (List.length b).
Proof.
  intros H. unfold find0.
  destruct (Z.ltb_spec (Z.of_nat (List.length (pre ++ b ++ x00 :: rest)))
              (Z.of_nat (List.length pre))) as [Hlt|Hge].
  - rewrite length_app in Hlt. lia.
  - rewrite Nat2Z.id. rewrite skipn_app, Nat.sub_diag, skipn_all. cbn [skipn app].
    now apply find0_from_plain.
Qed.

Lemma slice_middle {A : Type} (pre mid post : list A) :
  slice (pre ++ mid ++ post) (Z.of_nat (List.length pre))
        (Z.of_nat (List.length pre) + Z.of_nat (List.length mid)) = mid.
Proof.
  rewrite slice_nonneg by lia.
  rewrite Nat2Z.id, skipn_app, Nat.sub_diag, skipn_all. cbn [skipn app].
  replace (Z.to_nat (Z.of_nat (List.length pre) + Z.of_nat (List.length mid)
                     - Z.of_nat (List.length pre)))
    with (List.length mid + 0)%nat by lia.
  rewrite firstn_app_2. cbn [firstn]. apply app_nil_r.
Qed.

Lemma in_Modes (m : pystr) :
  dict_contains Modes (AStr m) = true <->
  m = lit "OCTET" \/ m = lit "NETASCII" \/ m = lit "MAIL".
Proof.
  unfold dict_contains, Modes. cbn [dict_get atom_eqb]. unfold pystr_eqb.
  destruct (list_eq_dec N.eq_dec m (lit "OCTET")); [tauto|].
  destruct (list_eq_dec N.eq_dec m (lit "NETASCII")); [tauto|].
  destruct (list_eq_dec N.eq_dec m (lit "MAIL")); [tauto|].
  split; [discriminate | tauto].
Qed.

Lemma request_packet_parts (opcode : Z) (fn md rest : bytes) :
  plain fn -> plain md ->
  let packet := request_packet opcode fn md rest in
  let e1 := 2 + Z.of_nat (List.length fn) in
  slice packet 0 2 = bs [0; opcode] /\
  find0 packet 2 = e1 /\
  slice packet 2 e1 = fn /\
  find0 packet (e1 + 1) = e1 + 1 + Z.of_nat (List.length md) /\
  slice packet (e1 + 1) (e1 + 1 + Z.of_nat (List.length md)) = md.
Proof.
  intros Hfn Hmd packet e1.
  set (pre := bs [0; opcode]).
  assert (Hpre : Z.of_nat (List.length pre) = 2) by reflexivity.
  assert (P1 : packet = pre ++ fn ++ x00 :: (md ++ [x00] ++ rest)) by reflexivity.
  set (pre' := pre ++ fn ++ [x00]).
  assert (Hpre' : Z.of_nat (List.length pre') = e1 + 1).
  { unfold pre', e1. rewrite !length_app. cbn [List.length]. lia. }
  assert (P2 : packet = pre' ++ md ++ x00 :: rest).
  { unfold pre', packet, request_packet. fold pre.
    rewrite <- !app_assoc. reflexivity. }
  repeat split.
  - rewrite slice_0_2. reflexivity.
  - rewrite P1, <- Hpre. now apply find0_at.
  - rewrite P1. unfold e1. rewrite <- Hpre. apply slice_middle.
  - rewrite P2, <- Hpre'. now apply find0_at.
  - rewrite P2, <- Hpre'. apply slice_middle.
Qed.

(** X10: decoding is the inverse of the wire format of a request.  For the
    opcode 1 or 2, a file name that is not empty and a mode, both ASCII
    text without a zero byte, the mode being octet, netascii or mail in
    any mix of cases, [unpackRWRQ] of the opcode, the name, a zero byte,
    the mode, a zero byte and anything after them is the opcode, the name
    and the mode in capitals.  What follows the second zero byte is
    ignored. *)
Theorem unpackRWRQ_inverts_wire (opcode : Z) (fn md rest : bytes) :
  opcode = 1 \/ opcode = 2 ->
  plain fn -> fn <> [] -> plain md ->
  dict_contains Modes (AStr (str_upper (text md))) = true ->
  unpackRWRQ (request_packet opcode fn md rest) =
  Ok (opcode, text fn, str_upper (text md)).
Proof.
  intros Hop Hfn Hne Hmd Hmode.
  destruct (request_packet_parts opcode fn md rest Hfn Hmd)
    as (H02 & Hf1 & Hs1 & Hf2 & Hs2).
  assert (Hopc : unpackOpcode (request_packet opcode fn md rest) = Ok opcode).
  { apply unpackOpcode_Ok. rewrite H02. destruct Hop as [-> | ->]; cbn; lia. }
  unfold unpackRWRQ. rewrite Hopc. cbn [bind].
  rewrite Opcodes_RRQ, Opcodes_WRQ. cbn [bind atom_eqb].
  assert (Hneg : negb ((opcode =? 1) || (opcode =? 2)) = false)
    by (destruct Hop as [-> | ->]; reflexivity).
  rewrite Hneg. cbv zeta. rewrite Hf1.
  destruct (Z.ltb_spec (2 + Z.of_nat (List.length fn)) 2); [lia|].
  rewrite Hs1, (decode_utf8_plain fn Hfn). cbn [bind].
  rewrite Hf2.
  destruct (Z.ltb_spec (2 + Z.of_nat (List.length fn) + 1 + Z.of_nat (List.length md))
              (2 + Z.of_nat (List.length fn) + 1)); [lia|].
  rewrite Hs2, (decode_utf8_plain md Hmd). cbn [bind].
  assert (Hfe : pystr_eqb (text fn) [] = false).
  { destruct fn; [congruence | reflexivity]. }
  rewrite Hfe, Hmode. reflexivity.
Qed.

Lemma unpackRWRQ_inverts_wire_witness :
  let fn := ascii_bytes "boot.img" in
  let md := ascii_bytes "NetAscii" in
  plain fn /\ plain md /\
  unpackRWRQ (request_packet 1 fn md (ascii_bytes "blksize")) =
  Ok (1, lit "boot.img", lit "NETASCII").
Proof.
  intros fn md.
  assert (Hfn : plain fn) by (repeat constructor; cbn; lia).
  assert (Hmd : plain md) by (repeat constructor; cbn; lia).
  split; [exact Hfn|]. split; [exact Hmd|].
  apply (unpackRWRQ_inverts_wire 1 fn md (ascii_bytes "blksize")).
  - left; reflexivity.
  - exact Hfn.
  - discriminate.
  - exact Hmd.
  - reflexivity.
Defined.

Lemma unpackRWRQ_request (packet : bytes) (c : Z) :
  unpackOpcode packet = Ok c -> c = 1 \/ c = 2 ->
  request_outcome c (unpackRWRQ packet).
Proof.
  intros Hop Hc. unfold unpackRWRQ. rewrite Hop. cbn [bind].
  rewrite Opcodes_RRQ, Opcodes_WRQ. cbn [bind atom_eqb].
  assert (Hneg : negb ((c =? 1) || (c =? 2)) = false)
    by (destruct Hc as [-> | ->]; reflexivity).
  rewrite Hneg. cbv zeta.
  case_if; [apply no_filename_end|].
  destruct (decode_utf8 (slice packet 2 (find0 packet 2))) as [filename|y] eqn:Ef;
    cbn [bind].
  2:{ apply not_utf8. now apply utf8_run_Raise in Ef. }
  case_if; [apply no_mode_end|].
  destruct (decode_utf8 (slice packet (find0 packet 2 + 1)
                           (find0 packet (find0 packet 2 + 1))))
    as [mode|y] eqn:Em; cbn [bind].
  2:{ apply not_utf8. now apply utf8_run_Raise in Em. }
  destruct (pystr_eqb filename []) eqn:Efn; [apply empty_filename|].
  destruct (dict_contains Modes (AStr (str_upper mode))) eqn:Emode; cbn [negb].
  - apply request; [|assumption]. intros ->. discriminate Efn.
  - now apply unknown_mode.
Qed.

(** X11: what [unpackRWRQ] returns.  When it returns [(opcode, filename,
    mode)], the opcode is 1 or 2 and is the opcode of the packet, the file
    name is not empty, and the mode is one of the three keys of [Modes],
    OCTET, NETASCII or MAIL, in capitals whatever the case on the wire. *)
Theorem unpackRWRQ_returns (packet : bytes) (opcode : Z) (filename mode : pystr) :
  unpackRWRQ packet = Ok (opcode, filename, mode) ->
  (opcode = 1 \/ opcode = 2) /\
  unpackOpcode packet = Ok opcode /\
  filename <> [] /\
  (mode = lit "OCTET" \/ mode = lit "NETASCII" \/ mode = lit "MAIL").
Proof.
  intros H.
  destruct (unpackOpcode packet) as [c|x] eqn:Eop.
  2:{ unfold unpackRWRQ in H. rewrite Eop in H. discriminate. }
  pose proof Eop as Hr. apply unpackOpcode_Ok in Hr. destruct Hr as [_ Hr].
  assert (Hcases : (c = 1 \/ c = 2) \/ (c = 3 \/ c = 4 \/ c = 5)) by lia.
  destruct Hcases as [H12 | H345].
  - pose proof (unpackRWRQ_request packet c Eop H12) as Ho.
    rewrite H in Ho. inversion Ho; subst.
    repeat split; auto. now apply in_Modes.
  - rewrite (unpackRWRQ_non_request_NameError packet c Eop H345) in H. discriminate.
Qed.

Lemma unpackRWRQ_returns_witness :
  let packet := request_packet 2 (ascii_bytes "a.txt") (ascii_bytes "octet") [] in
  unpackRWRQ packet = Ok (2, lit "a.txt", lit "OCTET") /\
  unpackOpcode packet = Ok 2.
Proof.
  intros packet.
  assert (H : unpackRWRQ packet = Ok (2, lit "a.txt", lit "OCTET")) by reflexivity.
  split; [exact H|].
  destruct (unpackRWRQ_returns packet 2 (lit "a.txt") (lit "OCTET") H) as (_ & Hop & _).
  exact Hop.
Defined.

(** X12: what [unpackRWRQ] raises.  The exception is the
    UnknownOpcodeException of [unpackOpcode], a NameError (exactly when
    the opcode is 3, 4 or 5), MalformedPacketException,
    UnicodeDecodeError, EmptyPathException or UnknownModeException.  It
    is never IllegalOperationException, the class that the rejection of
    another opcode was to raise. *)
Theorem unpackRWRQ_raises (packet : bytes) (x : exn) :
  unpackRWRQ packet = Raise x ->
  In (exn_cls x)
     [UnknownOpcodeException; NameError; MalformedPacketException;
      UnicodeDecodeError; EmptyPathException; UnknownModeException] /\
  exn_cls x <> IllegalOperationException /\
  (exn_cls x = NameError <->
   exists c, unpackOpcode packet = Ok c /\ (c = 3 \/ c = 4 \/ c = 5)).
Proof.
  intros H.
  destruct (unpackOpcode packet) as [c|y] eqn:Eop.
  - pose proof Eop as Hr. apply unpackOpcode_Ok in Hr. destruct Hr as [_ Hr].
    assert (Hcases : (c = 1 \/ c = 2) \/ (c = 3 \/ c = 4 \/ c = 5)) by lia.
    destruct Hcases as [H12 | H345].
    + pose proof (unpackRWRQ_request packet c Eop H12) as Ho.
      rewrite H in Ho.
      assert (Hcls : In (exn_cls x)
                [MalformedPacketException; UnicodeDecodeError;
                 EmptyPathException; UnknownModeException]).
      { inversion Ho; subst; cbn; auto. }
      cbn in Hcls. repeat split.
      * cbn. intuition.
      * intros E. rewrite E in Hcls. intuition discriminate.
      * intros E. rewrite E in Hcls. intuition discriminate.
      * intros (c' & Hc' & H345). inversion Hc'; subst. lia.
    + rewrite (unpackRWRQ_non_request_NameError packet c Eop H345) in H.
      inversion H; subst. cbn. repeat split; auto; try discriminate.
      intros _. now exists c.
  - unfold unpackRWRQ in H. rewrite Eop in H. cbn [bind] in H. inversion H; subst.
    apply unpackOpcode_Raise in Eop. destruct Eop as [_ ->]. cbn.
    repeat split; auto; try discriminate.
    intros (c & Hc & _). discriminate.
Qed.

Lemma unpackRWRQ_raises_witness :
  unpackRWRQ (bs [0; 3; 0; 1]) = raise NameError (lit "name 'c' is not defined") /\
  exists c, unpackOpcode (bs [0; 3; 0; 1]) = Ok c /\ (c = 3 \/ c = 4 \/ c = 5).
Proof.
  assert (H : unpackRWRQ (bs [0; 3; 0; 1]) =
              raise NameError (lit "name 'c' is not defined")) by reflexivity.
  split; [exact H|].
  destruct (unpackRWRQ_raises (bs [0; 3; 0; 1]) _ H) as (_ & _ & Hn).
  apply Hn. reflexivity.
Defined.

Lemma find0_none_at (pre b : bytes) :
  plain b -> find0 (pre ++ b) (Z.of_nat (List.length pre)) = -1.
Proof.
  intros H. unfold find0.
  destruct (Z.ltb_spec (Z.of_nat (List.length (pre ++ b)))
              (Z.of_nat (List.length pre))) as [Hlt|Hge]; [reflexivity|].
  rewrite Nat2Z.id, skipn_app, Nat.sub_diag, skipn_all. cbn [skipn app].
  apply find0_from_none. now apply plain_no_zero.
Qed.

(** X13: the two zero bytes of a request are looked for before the file
    name is looked at.  For the opcode 1 or 2 and ASCII text without a zero
    byte, the opcode and the text alone raise MalformedPacketException for
    the end of the file name, and the opcode, a name (be it empty), a
    zero byte and the text raise MalformedPacketException for the end of
    the mode. *)
Theorem unpackRWRQ_needs_terminators (opcode : Z) (fn md : bytes) :
  opcode = 1 \/ opcode = 2 ->
  plain fn -> plain md ->
  unpackRWRQ (bs [0; opcode] ++ fn) =
    raise MalformedPacketException (lit "Couldn't find filename termination byte") /\
  unpackRWRQ (bs [0; opcode] ++ fn ++ [x00] ++ md) =
    raise MalformedPacketException (lit "Couldn't find mode termination byte").
Proof.
  intros Hop Hfn Hmd.
  assert (Hneg : negb ((opcode =? 1) || (opcode =? 2)) = false)
    by (destruct Hop as [-> | ->]; reflexivity).
  assert (Hopc : forall r, unpackOpcode (bs [0; opcode] ++ r) = Ok opcode).
  { intros r. apply unpackOpcode_Ok. rewrite slice_0_2.
    destruct Hop as [-> | ->]; cbn; lia. }
  split.
  - unfold unpackRWRQ. rewrite Hopc. cbn [bind].
    rewrite Opcodes_RRQ, Opcodes_WRQ. cbn [bind atom_eqb]. rewrite Hneg. cbv zeta.
    change 2 with (Z.of_nat (List.length (bs [0; opcode]))) at 1.
    rewrite (find0_none_at (bs [0; opcode]) fn Hfn). reflexivity.
  - set (packet := bs [0; opcode] ++ fn ++ [x00] ++ md).
    assert (Hf1 : find0 packet 2 = 2 + Z.of_nat (List.length fn)).
    { change 2 with (Z.of_nat (List.length (bs [0; opcode]))).
      unfold packet. now apply find0_at. }
    assert (Hs1 : slice packet 2 (2 + Z.of_nat (List.length fn)) = fn).
    { change 2 with (Z.of_nat (List.length (bs [0; opcode]))).
      unfold packet. apply slice_middle. }
    assert (Hf2 : find0 packet (2 + Z.of_nat (List.length fn) + 1) = -1).
    { replace packet with ((bs [0; opcode] ++ fn ++ [x00]) ++ md)
        by (unfold packet; rewrite <- !app_assoc; reflexivity).
      replace (2 + Z.of_nat (List.length fn) + 1)
        with (Z.of_nat (List.length (bs [0; opcode] ++ fn ++ [x00])))
        by (rewrite !length_app; cbn [List.length bs map]; lia).
      now apply find0_none_at. }
    unfold unpackRWRQ. fold packet. unfold packet at 1. rewrite Hopc. cbn [bind].
    rewrite Opcodes_RRQ, Opcodes_WRQ. cbn [bind atom_eqb]. rewrite Hneg. cbv zeta.
    rewrite Hf1.
    destruct (Z.ltb_spec (2 + Z.of_nat (List.length fn)) 2); [lia|].
    rewrite Hs1, (decode_utf8_plain fn Hfn). cbn [bind].
    rewrite Hf2.
    destruct (Z.ltb_spec (-1) (2 + Z.of_nat (List.length fn) + 1)); [reflexivity | lia].
Qed.

Lemma unpackRWRQ_needs_terminators_witness :
  unpackRWRQ (bs [0; 1] ++ ascii_bytes "boot.img") =
    raise MalformedPacketException (lit "Couldn't find filename termination byte") /\
  unpackRWRQ (bs [0; 1] ++ ascii_bytes "boot.img" ++ [x00] ++ ascii_bytes "octet") =
    raise MalformedPacketException (lit "Couldn't find mode termination byte").
Proof.
  apply (unpackRWRQ_needs_terminators 1 (ascii_bytes "boot.img") (ascii_bytes "octet")).
  - left; reflexivity.
  - repeat constructor; cbn; lia.
  - repeat constructor; cbn; lia.
Defined.

(** ** The blocks of the read loop *)


(** X14: a full block.  When the locals hold the bounds of a block
    ([e = s + 512], [s] not below -512) and the file reaches 512 bytes
    beyond [e], the next block that the loop prepares is the 512 bytes of
    the file from [e] on; the bounds move on by 512, the block number by 1,
    and the block is marked to be sent. *)
Theorem new_block_full (file : bytes) (l : RRQ.locals) :
  -512 <= RRQ.s l -> RRQ.e l = RRQ.s l + 512 ->
  RRQ.e l + 512 <= Z.of_nat (List.length file) ->
  let l' := new_block file l in
  RRQ.data l' = PBytes (firstn 512 (skipn (Z.to_nat (RRQ.e l)) file)) /\
  List.length (firstn 512 (skipn (Z.to_nat (RRQ.e l)) file)) = 512%nat /\
  RRQ.s l' = RRQ.e l /\ RRQ.e l' = RRQ.e l + 512 /\
  RRQ.dataBlock l' = RRQ.dataBlock l + 1 /\
  RRQ.ackBlock l' = RRQ.ackBlock l /\
  RRQ.sendDATA l' = true.
Proof.
  intros Hs He Hlen l'. unfold l', new_block.
  cbn [RRQ.data RRQ.s RRQ.e RRQ.dataBlock RRQ.ackBlock RRQ.sendDATA].
  destruct (Z.gtb_spec (RRQ.e l + 512) (Z.of_nat (List.length file))); [lia|].
  repeat split; try lia.
  - rewrite slice_nonneg by lia. rewrite <- He.
    replace (Z.to_nat (RRQ.e l + 512 - RRQ.e l)) with 512%nat by lia.
    reflexivity.
  - rewrite length_firstn, length_skipn. lia.
Qed.

Lemma new_block_full_witness :
  let file := file_of_size 1024 in
  let l := on_ack 1 (on_sent (new_block file initial)) in
  RRQ.data (new_block file l) = PBytes (firstn 512 (skipn 512 file)) /\
  RRQ.dataBlock (new_block file l) = 2.
Proof.
  intros file l.
  destruct (new_block_full file l) as (H1 & _ & _ & _ & H2 & _).
  - cbn. lia.
  - reflexivity.
  - cbn. lia.
  - split; [exact H1 | exact H2].
Defined.



(** ** A turn of the read loop on a datagram *)







(** ** What the read loop sends *)

Lemma iteration_out_cases (peer : address) (file : bytes) (l : RRQ.locals)
    (evs : list event) :
  fst (fst (iteration peer file l evs)) = [] \/
  exists a, fst (iteration peer file l evs) = ([(error_packet 4 a, peer)], Return).
Proof.
  unfold iteration.
  set (l' := if RRQ.ackBlock l =? RRQ.dataBlock l then new_block file l else l).
  destruct (RRQ.sendDATA l') eqn:Hs.
  - rewrite send_phase_raises by assumption. now left.
  - rewrite send_phase_idle by assumption.
    destruct (recv_phase_out peer l' evs) as [Hout | [a Hout]].
    + left. destruct (recv_phase peer l' evs) as [[out2 f] evs']. cbn in Hout.
      subst out2. destruct f; [destruct (finished l0)|..]; reflexivity.
    + right. exists a. destruct (recv_phase peer l' evs) as [[out2 f] evs'].
      cbn in Hout. inversion Hout; subst. reflexivity.
Qed.

Lemma loop_out_cases (fuel : nat) (peer : address) (file : bytes)
    (l : RRQ.locals) (evs : list event) :
  fst (fst (loop fuel peer file l evs)) = [] \/
  exists a, fst (loop fuel peer file l evs) = ([(error_packet 4 a, peer)], Return).
Proof.
  revert l evs. induction fuel as [|fuel IH]; intros l evs; cbn [loop].
  - now left.
  - destruct (iteration_out_cases peer file l evs) as [Hout | [a Hout]].
    + destruct (iteration peer file l evs) as [[out f] evs'] eqn:E.
      cbn in Hout. subst out. destruct f as [l'| |x]; try (now left).
      specialize (IH l' evs').
      destruct (loop fuel peer file l' evs') as [[out' f'] evs''].
      exact IH.
    + destruct (iteration peer file l evs) as [[out f] evs'] eqn:E.
      cbn in Hout. inversion Hout; subst. right. now exists a.
Qed.

(** X19: what the read loop sends, from any locals, on any trace and for
    any number of turns: nothing, or one Error packet with the code
    ILLEGAL_OPERATION (4) to the peer, after which it has returned.  The
    loop never sends a Data packet, and never resends anything. *)
Theorem loop_sends_one_error_at_most (fuel : nat) (peer : address) (file : bytes)
    (l : RRQ.locals) (evs : list event) :
  (fst (fst (loop fuel peer file l evs)) = [] \/
   exists a, fst (loop fuel peer file l evs) = ([(error_packet 4 a, peer)], Return)) /\
  (forall d, In d (fst (fst (loop fuel peer file l evs))) ->
     snd d = peer /\ unpackOpcode (fst d) = Ok 5).
Proof.
  pose proof (loop_out_cases fuel peer file l evs) as H. split; [exact H|].
  intros d Hd. destruct H as [H | [a H]].
  - rewrite H in Hd. destruct Hd.
  - rewrite H in Hd. cbn [fst In] in Hd. destruct Hd as [<- | []].
    split; [reflexivity | apply (unpackOpcode_error_packet 4 a)].
Qed.

(** ** Texts that can be sent *)

Lemma encode_ascii_Ok (msg : pystr) :
  Forall (fun c => (c < 128)%N) msg -> exists a, encode_ascii msg = Ok a.
Proof.
  induction 1 as [|c msg Hc Hmsg [a IH]]; cbn [encode_ascii].
  - now exists [].
  - destruct (N.ltb_spec c 128); [|lia]. rewrite IH. cbn [bind]. eexists; reflexivity.
Qed.

Lemma digits_ascii (d : Decimal.uint) :
  Forall (fun c => (c < 128)%N) (lit (NilEmpty.string_of_uint d)).
Proof.
  induction d; cbn [NilEmpty.string_of_uint]; unfold lit in *;
    cbn [list_ascii_of_string map]; constructor; try assumption; cbn; lia.
Qed.

Lemma str_of_int_ascii (n : Z) : Forall (fun c => (c < 128)%N) (str_of_int n).
Proof.
  unfold str_of_int, NilZero.string_of_int.
  destruct (Z.to_int n) as [d|d]; unfold NilZero.string_of_uint.
  - destruct d; try apply digits_ascii. repeat constructor.
  - unfold lit. cbn [list_ascii_of_string map]. constructor; [cbn; lia|].
    fold (lit (match d with
               | Decimal.Nil => "0"%string
               | _ => NilEmpty.string_of_uint d
               end)).
    destruct d; try apply digits_ascii. repeat constructor.
Qed.

(** ** Handler.handle *)

Lemma reject_out (from : address) (code : string) (k : Z) (x : exn) :
  dict_getitem Errors (key code) = Ok (AInt k) -> 0 <= k <= 7 ->
  reject from code x =
  match encode_ascii (exn_str x) with
  | Ok a => ([(error_packet k a, from)], Return)
  | Raise y => ([], Throw y)
  end.
Proof.
  intros Hk Hr. unfold reject. rewrite Hk. cbn [seq_py].
  rewrite packERROR_wire by assumption.
  destruct (encode_ascii (exn_str x)); reflexivity.
Qed.

(** How [handle] goes on from an exception of [unpackRWRQ], by its
    class. *)
Lemma handle_Raise (store : storage) (fuel : nat) (packet : bytes)
    (from : address) (evs : list event) (x : exn) :
  unpackRWRQ packet = Raise x ->
  handle store fuel packet from evs =
  if existsb (exn_class_eqb (exn_cls x))
       [UnknownModeException; EmptyPathException;
        IllegalOperationException; UnknownOpcodeException]
  then match encode_ascii (exn_str x) with
       | Ok a => Handled None [(error_packet (answer_code (exn_cls x)) a, from)] Return evs
       | Raise y => Handled None [] (Throw y) evs
       end
  else Handled None [] (Throw x) evs.
Proof.
  intros H. unfold handle. rewrite H. cbn [seq_py try_except].
  destruct x as [c msg].
  destruct c; cbn -[reject encode_ascii error_packet]; try reflexivity.
  - rewrite (reject_out from "ILLEGAL_OPERATION" 4) by (reflexivity || lia).
    cbn [exn_str]. destruct (encode_ascii msg); reflexivity.
  - rewrite (reject_out from "ILLEGAL_OPERATION" 4) by (reflexivity || lia).
    cbn [exn_str]. destruct (encode_ascii msg); reflexivity.
  - rewrite (reject_out from "ACCESS_VIOLATION" 2) by (reflexivity || lia).
    cbn [exn_str]. destruct (encode_ascii msg); reflexivity.
  - rewrite (reject_out from "FILE_NOT_FOUND" 1) by (reflexivity || lia).
    cbn [exn_str]. destruct (encode_ascii msg); reflexivity.
Qed.

(** X20: a datagram with no opcode of the table.  When [unpackOpcode]
    refuses the first bytes of the datagram (an empty datagram too),
    [handle] sends one Error packet to the client, with the code
    ILLEGAL_OPERATION (4) and the text "Unknown Opcode '...'", and returns
    without entering a transfer handler. *)
Theorem handle_unknown_opcode (store : storage) (fuel : nat) (packet : bytes)
    (from : address) (evs : list event) (x : exn) :
  unpackOpcode packet = Raise x ->
  exists a,
    encode_ascii
      (lit "Unknown Opcode '" ++ str_of_int (int_from_bytes (firstn 2 packet)) ++ lit "'")
      = Ok a /\
    handle store fuel packet from evs =
    Handled None [(error_packet 4 a, from)] Return evs.
Proof.
  intros Hop.
  assert (Hrw : unpackRWRQ packet = Raise x)
    by (unfold unpackRWRQ; rewrite Hop; reflexivity).
  apply unpackOpcode_Raise in Hop. destruct Hop as [_ Hx].
  rewrite slice_0_2 in Hx.
  destruct (encode_ascii_Ok
              (lit "Unknown Opcode '" ++ str_of_int (int_from_bytes (firstn 2 packet))
               ++ lit "'")) as [a Ha].
  { apply Forall_app. split; [repeat constructor|].
    apply Forall_app. split; [apply str_of_int_ascii | repeat constructor]. }
  exists a. split; [exact Ha|].
  rewrite (handle_Raise store fuel packet from evs x Hrw).
  subst x. cbn [exn_cls exn_str existsb exn_class_eqb orb answer_code].
  rewrite Ha. reflexivity.
Qed.

Lemma handle_unknown_opcode_witness :
  exists a,
    encode_ascii (lit "Unknown Opcode '" ++ str_of_int (int_from_bytes (firstn 2 (bs [0; 9])))
                  ++ lit "'") = Ok a /\
    handle (store_of []) 3 (bs [0; 9]) client [] =
    Handled None [(error_packet 4 a, client)] Return [].
Proof.
  apply (handle_unknown_opcode (store_of []) 3 (bs [0; 9]) client []
           (Exn UnknownOpcodeException (lit "Unknown Opcode '9'"))).
  reflexivity.
Defined.

(** X21: the datagrams that get no answer.  When [unpackRWRQ] raises
    MalformedPacketException (a zero byte is missing), NameError (the
    datagram is a Data, Ack or Error packet) or UnicodeDecodeError (the
    file name or the mode is not UTF-8), no [except] clause of [handle]
    names the class: nothing is sent, and the exception leaves [handle]. *)
Theorem handle_leaves_unanswered (store : storage) (fuel : nat) (packet : bytes)
    (from : address) (evs : list event) (x : exn) :
  unpackRWRQ packet = Raise x ->
  exn_cls x = MalformedPacketException \/ exn_cls x = NameError \/
  exn_cls x = UnicodeDecodeError ->
  handle store fuel packet from evs = Handled None [] (Throw x) evs.
Proof.
  intros H Hc. rewrite (handle_Raise store fuel packet from evs x H).
  destruct Hc as [-> | [-> | ->]]; reflexivity.
Qed.

Lemma handle_leaves_unanswered_witness :
  let packet := bs [0; 1] ++ ascii_bytes "boot.img" in
  handle (store_of []) 3 packet client [] =
  Handled None []
    (Throw (Exn MalformedPacketException
              (lit "Couldn't find filename termination byte"))) [].
Proof.
  intros packet.
  apply (handle_leaves_unanswered (store_of []) 3 packet client []).
  - reflexivity.
  - left; reflexivity.
Defined.

Lemma handle_Ok (store : storage) (fuel : nat) (packet : bytes)
    (from : address) (evs : list event) (opcode : Z) (filename mode : pystr) :
  unpackRWRQ packet = Ok (opcode, filename, mode) ->
  handle store fuel packet from evs =
  if opcode =? 1 then
    let '((out, f), evs') := handleRRQ store fuel from filename mode evs in
    Handled (Some "handleRRQ"%string) out (forget f) evs'
  else
    Handled (Some "handleWRQ"%string) []
      (Throw (Exn TypeError (lit "a bytes-like object is required"))) evs.
Proof.
  intros H. unfold handle. rewrite H. cbn [seq_py try_except].
  rewrite Opcodes_RRQ. cbn [atom_eqb].
  destruct (opcode =? 1).
  - destruct (handleRRQ store fuel from filename mode evs) as [[out f] evs'].
    reflexivity.
  - reflexivity.
Qed.



(** X23: a read request for a file that the store holds.  [handle] enters
    [handleRRQ]; whatever the file and whatever the client would send, no
    datagram is sent and none is read: the first turn of the loop stops in
    the sending of block 1, and [handle] is left by an AttributeError. *)
Theorem handle_read_request (store : storage) (fuel : nat) (packet : bytes)
    (from : address) (evs : list event) (filename mode : pystr) (file : bytes) :
  unpackRWRQ packet = Ok (1, filename, mode) ->
  store filename = Ok file ->
  handle store (S fuel) packet from evs =
  Handled (Some "handleRRQ"%string) [] (Throw no_Timeout) evs.
Proof.
  intros H Hfile.
  rewrite (handle_Ok store (S fuel) packet from evs 1 filename mode H).
  cbn [Z.eqb Pos.eqb].
  rewrite (handleRRQ_raises store fuel from filename mode file evs Hfile).
  reflexivity.
Qed.

Lemma handle_read_request_witness :
  let packet := request_packet 1 (ascii_bytes "a.txt") (ascii_bytes "octet") [] in
  handle (store_of (file_of_size 2000)) 5 packet client
    [Datagram client (bs [0; 4; 0; 1])] =
  Handled (Some "handleRRQ"%string) [] (Throw no_Timeout)
    [Datagram client (bs [0; 4; 0; 1])].
Proof.
  intros packet.
  apply (handle_read_request (store_of (file_of_size 2000)) 4 packet client
           [Datagram client (bs [0; 4; 0; 1])] (lit "a.txt") (lit "OCTET")
           (file_of_size 2000)).
  - reflexivity.
  - reflexivity.
Defined.

(** ** handleRRQ and the store *)

Lemma handleRRQ_store_Raise (store : storage) (fuel : nat) (peer : address)
    (filename mode : pystr) (evs : list event) (x : exn) :
  store filename = Raise x ->
  handleRRQ store fuel peer filename mode evs =
  if existsb (exn_class_eqb (exn_cls x)) [FileNotFoundException; EmptyPathException]
  then match encode_ascii (exn_str x) with
       | Ok a => (([(error_packet 1 a, peer)], Return), evs)
       | Raise y => (([], Throw y), evs)
       end
  else (([], Throw x), evs).
Proof.
  intros H. unfold handleRRQ. rewrite H. cbn [seq_py try_except].
  cbn -[packERROR dict_getitem encode_ascii error_packet].
  destruct (exn_class_eqb (exn_cls x) FileNotFoundException
            || (exn_class_eqb (exn_cls x) EmptyPathException || false)).
  - rewrite Errors_FILE_NOT_FOUND. cbn [seq_py].
    rewrite packERROR_wire by lia.
    destruct (encode_ascii (exn_str x)); reflexivity.
  - reflexivity.
Qed.

(** X24: a read request for a file that the store does not hold.  When the
    store raises FileNotFoundException or EmptyPathException with an
    ASCII text, [handleRRQ] sends one Error packet with the code
    FILE_NOT_FOUND (1) and that text to the peer, and returns without
    entering its loop, whatever the trace. *)
Theorem handleRRQ_missing_file (store : storage) (fuel : nat) (peer : address)
    (filename mode : pystr) (evs : list event) (x : exn) (a : bytes) :
  store filename = Raise x ->
  exn_cls x = FileNotFoundException \/ exn_cls x = EmptyPathException ->
  encode_ascii (exn_str x) = Ok a ->
  handleRRQ store fuel peer filename mode evs =
  (([(error_packet 1 a, peer)], Return), evs).
Proof.
  intros H Hc Ha.
  rewrite (handleRRQ_store_Raise store fuel peer filename mode evs x H).
  rewrite Ha. destruct Hc as [-> | ->]; reflexivity.
Qed.

Lemma handleRRQ_missing_file_witness :
  let store : storage :=
    fun _ => raise FileNotFoundException (lit "File not found") in
  handleRRQ store 5 client (lit "a.txt") (lit "OCTET") [Timeout] =
  (([(error_packet 1 (ascii_bytes "File not found"), client)], Return), [Timeout]).
Proof.
  intros store.
  apply (handleRRQ_missing_file store 5 client (lit "a.txt") (lit "OCTET") [Timeout]
           (Exn FileNotFoundException (lit "File not found"))).
  - reflexivity.
  - left; reflexivity.
  - reflexivity.
Defined.

(** ** What the server sends *)

Lemma handleRRQ_out (store : storage) (fuel : nat) (peer : address)
    (filename mode : pystr) (evs : list event) :
  fst (fst (handleRRQ store fuel peer filename mode evs)) = [] \/
  exists code a,
    (code = 1 \/ code = 4) /\
    fst (handleRRQ store fuel peer filename mode evs) =
    ([(error_packet code a, peer)], Return).
Proof.
  destruct (store filename) as [file|x] eqn:E.
  - unfold handleRRQ. rewrite E. cbn [seq_py try_except].
    destruct (loop_out_cases fuel peer file initial evs) as [H | [a H]].
    + left. destruct (loop fuel peer file initial evs) as [[out f] evs'].
      cbn in H. subst out. reflexivity.
    + right. exists 4, a. split; [now right|].
      destruct (loop fuel peer file initial evs) as [[out f] evs'].
      cbn in H. inversion H; subst. reflexivity.
  - rewrite (handleRRQ_store_Raise store fuel peer filename mode evs x E).
    destruct (existsb _ _); [|now left].
    destruct (encode_ascii (exn_str x)) as [a|y]; [|now left].
    right. exists 1, a. split; [now left | reflexivity].
Qed.

(** X25: what a call of [handle] sends, for every datagram, store and
    trace: nothing, or one Error packet to the address the datagram came
    from, with the code 1, 2 or 4, after which [handle] has returned.  The
    server never sends a Data or an Ack packet, never more than one
    datagram for a request, and never to another address. *)
Theorem handle_sends_one_error_at_most (store : storage) (fuel : nat)
    (packet : bytes) (from : address) (evs : list event) :
  sent (handle store fuel packet from evs) = [] \/
  exists code a,
    (code = 1 \/ code = 2 \/ code = 4) /\
    sent (handle store fuel packet from evs) = [(error_packet code a, from)] /\
    ending (handle store fuel packet from evs) = Return.
Proof.
  destruct (unpackRWRQ packet) as [[[opcode filename] mode]|x] eqn:E.
  - rewrite (handle_Ok store fuel packet from evs opcode filename mode E).
    destruct (opcode =? 1); [|now left].
    destruct (handleRRQ_out store fuel from filename mode evs)
      as [H | (code & a & Hcode & H)].
    + left. destruct (handleRRQ store fuel from filename mode evs) as [[out f] evs'].
      exact H.
    + right. exists code, a.
      destruct (handleRRQ store fuel from filename mode evs) as [[out f] evs'].
      cbn in H. inversion H; subst. cbn. repeat split; tauto.
  - rewrite (handle_Raise store fuel packet from evs x E).
    destruct (existsb _ _); [|now left].
    destruct (encode_ascii (exn_str x)) as [a|y]; [|now left].
    right. exists (answer_code (exn_cls x)), a. cbn. repeat split.
    destruct (exn_cls x); cbn; tauto.
Qed.

(** ** The fields of a request *)

(** X26: the two refusals of a well-framed request, and their order.  For
    the opcode 1 or 2 and a file name and a mode of ASCII text without a
    zero byte: an empty file name raises EmptyPathException, be the mode
    known or not; a file name that is not empty with a mode that is none
    of octet, netascii and mail raises UnknownModeException, whose text
    quotes the mode as it was sent. *)
Theorem unpackRWRQ_refuses_fields (opcode : Z) (fn md rest : bytes) :
  opcode = 1 \/ opcode = 2 ->
  plain fn -> plain md ->
  (fn = [] ->
   unpackRWRQ (request_packet opcode fn md rest) =
   raise EmptyPathException (lit "Filename cannot be empty")) /\
  (fn <> [] ->
   dict_contains Modes (AStr (str_upper (text md))) = false ->
   unpackRWRQ (request_packet opcode fn md rest) =
   raise UnknownModeException (lit "Mode '" ++ text md ++ lit "' not recognized")).
Proof.
  intros Hop Hfn Hmd.
  destruct (request_packet_parts opcode fn md rest Hfn Hmd)
    as (H02 & Hf1 & Hs1 & Hf2 & Hs2).
  assert (Hopc : unpackOpcode (request_packet opcode fn md rest) = Ok opcode).
  { apply unpackOpcode_Ok. rewrite H02. destruct Hop as [-> | ->]; cbn; lia. }
  assert (Hneg : negb ((opcode =? 1) || (opcode =? 2)) = false)
    by (destruct Hop as [-> | ->]; reflexivity).
  assert (Hrun : unpackRWRQ (request_packet opcode fn md rest) =
                 if pystr_eqb (text fn) [] then
                   raise EmptyPathException (lit "Filename cannot be empty")
                 else if negb (dict_contains Modes (AStr (str_upper (text md)))) then
                   raise UnknownModeException
                     (lit "Mode '" ++ text md ++ lit "' not recognized")
                 else Ok (opcode, text fn, str_upper (text md))).
  { unfold unpackRWRQ. rewrite Hopc. cbn [bind].
    rewrite Opcodes_RRQ, Opcodes_WRQ. cbn [bind atom_eqb].
    rewrite Hneg. cbv zeta. rewrite Hf1.
    destruct (Z.ltb_spec (2 + Z.of_nat (List.length fn)) 2); [lia|].
    rewrite Hs1, (decode_utf8_plain fn Hfn). cbn [bind].
    rewrite Hf2.
    destruct (Z.ltb_spec (2 + Z.of_nat (List.length fn) + 1 + Z.of_nat (List.length md))
                (2 + Z.of_nat (List.length fn) + 1)); [lia|].
    rewrite Hs2, (decode_utf8_plain md Hmd). reflexivity. }
  rewrite Hrun. split.
  - intros ->. reflexivity.
  - intros Hne Hmode.
    assert (Hfe : pystr_eqb (text fn) [] = false).
    { destruct fn; [congruence | reflexivity]. }
    rewrite Hfe, Hmode. reflexivity.
Qed.

Lemma unpackRWRQ_refuses_fields_witness :
  unpackRWRQ (request_packet 1 [] (ascii_bytes "foo") []) =
    raise EmptyPathException (lit "Filename cannot be empty") /\
  unpackRWRQ (request_packet 1 (ascii_bytes "a") (ascii_bytes "Foo") []) =
    raise UnknownModeException (lit "Mode 'Foo' not recognized").
Proof.
  split.
  - destruct (unpackRWRQ_refuses_fields 1 [] (ascii_bytes "foo") []) as (H & _).
    + left; reflexivity.
    + constructor.
    + repeat constructor; cbn; lia.
    + apply H. reflexivity.
  - destruct (unpackRWRQ_refuses_fields 1 (ascii_bytes "a") (ascii_bytes "Foo") [])
      as (_ & H).
    + left; reflexivity.
    + repeat constructor; cbn; lia.
    + repeat constructor; cbn; lia.
    + apply H; [discriminate | reflexivity].
Defined.
